(** * Grant statement builders of pkg/snowflake/grant.go

    A shallow embedding of the grant builders and grant executables of
    the Snowflake provider, followed by the properties of the SQL text
    they render.  Go strings are [string]; the two string-backed
    enumerations [grantType] and [granteeType] stay strings with named
    constants, as in the source; the three structs are records, each in a
    module of its own that also holds its methods. *)

From Stdlib Require Import Strings.String Strings.Ascii Lists.List Bool Arith Lia.
Import ListNotations.
Open Scope string_scope.

(** The double-quote character, as a one-character string.  The Go source
    writes it inside raw string literals; here every template splices it
    in by name. *)
Definition dq : string := String "034"%char EmptyString.

(** ** The two library calls the file makes *)

Module fmt.

(** [fmt.Sprintf] restricted to what grant.go uses: the only verb is [%v]
    and every operand is a string (or a string-backed named type), which
    [%v] prints as it is.  Each [%v] consumes the next operand; every
    other character is copied.  A verb without operand prints fmt's
    [%!v(MISSING)]; no call below has that, nor operands left over. *)
Fixpoint Sprintf (format : string) (a : list string) : string :=
  match format with
  | EmptyString => EmptyString
  | String "%" (String "v" rest) =>
      match a with
      | arg :: a' => arg ++ Sprintf rest a'
      | [] => "%!v(MISSING)" ++ Sprintf rest []
      end
  | String c rest => String c (Sprintf rest a)
  end.

End fmt.

Module strings.

(** [strings.Join]: the elements with [sep] between consecutive ones. *)
Fixpoint Join (elems : list string) (sep : string) : string :=
  match elems with
  | [] => EmptyString
  | [e] => e
  | e :: rest => e ++ sep ++ Join rest sep
  end.

(** [strings.HasPrefix]. *)
Fixpoint HasPrefix (s pre : string) {struct pre} : bool :=
  match pre, s with
  | EmptyString, _ => true
  | String _ _, EmptyString => false
  | String c pre', String d s' => Ascii.eqb c d && HasPrefix s' pre'
  end.

(** [strings.Contains]: [substr] starts at some position of [s]. *)
Fixpoint Contains (s substr : string) : bool :=
  HasPrefix s substr ||
  match s with
  | EmptyString => false
  | String _ s' => Contains s' substr
  end.

(** [strings.HasSuffix]: [suf] starts at some position of [s] and runs to
    its end. *)
Fixpoint HasSuffix (s suf : string) : bool :=
  String.eqb s suf ||
  match s with
  | EmptyString => false
  | String _ s' => HasSuffix s' suf
  end.

End strings.

(** ** Object kinds and grantee kinds *)

Definition grantType := string.

Definition accountType : grantType := "ACCOUNT".

Definition resourceMonitorType : grantType := "RESOURCE MONITOR".
Definition integrationType : grantType := "INTEGRATION".

Definition databaseType : grantType := "DATABASE".
Definition schemaType : grantType := "SCHEMA".
Definition stageType : grantType := "STAGE".
Definition viewType : grantType := "VIEW".
Definition materializedViewType : grantType := "MATERIALIZED VIEW".
Definition tableType : grantType := "TABLE".
Definition warehouseType : grantType := "WAREHOUSE".
Definition externalTableType : grantType := "EXTERNAL TABLE".
Definition fileFormatType : grantType := "FILE FORMAT".
Definition functionType : grantType := "FUNCTION".
Definition procedureType : grantType := "PROCEDURE".
Definition sequenceType : grantType := "SEQUENCE".
Definition streamType : grantType := "STREAM".

Definition granteeType := string.

Definition roleType : granteeType := "ROLE".
Definition shareType : granteeType := "SHARE".
Definition userType : granteeType := "USER".

(** ** CurrentGrantExecutable

    The methods take a pointer receiver in Go but assign to no field, so
    each is a function of the receiver's value. *)

Module CurrentGrantExecutable.

Record t : Type := mk {
  grantName : string;
  grantType : grantType;
  granteeName : string;
  granteeType : granteeType
}.

(** Grant returns the SQL that will grant privileges on the grant to the
    grantee. *)
Definition Grant (ge : t) (p : string) (w : bool) : string :=
  let template :=
    if (p =? "OWNERSHIP")%string then
      "GRANT %v ON %v %v TO %v " ++ dq ++ "%v" ++ dq ++ " COPY CURRENT GRANTS"
    else if w then
      "GRANT %v ON %v %v TO %v " ++ dq ++ "%v" ++ dq ++ " WITH GRANT OPTION"
    else
      "GRANT %v ON %v %v TO %v " ++ dq ++ "%v" ++ dq
  in
  fmt.Sprintf template
    [p; grantType ge; grantName ge; granteeType ge; granteeName ge].

(** Revoke returns the SQL that will revoke privileges on the grant from
    the grantee. *)
Definition Revoke (ge : t) (p : string) : string :=
  fmt.Sprintf ("REVOKE %v ON %v %v FROM %v " ++ dq ++ "%v" ++ dq)
    [p; grantType ge; grantName ge; granteeType ge; granteeName ge].

(** Show returns the SQL that will show all grants of the grantee. *)
Definition Show (ge : t) : string :=
  fmt.Sprintf ("SHOW GRANTS OF %v " ++ dq ++ "%v" ++ dq)
    [granteeType ge; granteeName ge].

End CurrentGrantExecutable.

(** The interface GrantExecutable has one implementation in the package,
    so an interface value is a CurrentGrantExecutable. *)
Definition GrantExecutable : Type := CurrentGrantExecutable.t.

(** ** CurrentGrantBuilder *)

Module CurrentGrantBuilder.

Record t : Type := mk {
  name : string;
  qualifiedName : string;
  grantType : grantType
}.

Definition Name (gb : t) : string := name gb.

Definition GrantType (gb : t) : string := grantType gb.

(** Show returns the SQL that will show all privileges on the grant. *)
Definition Show (gb : t) : string :=
  fmt.Sprintf "SHOW GRANTS ON %v %v" [grantType gb; qualifiedName gb].

(** Role returns a CurrentGrantExecutable for a role. *)
Definition Role (gb : t) (n : string) : GrantExecutable :=
  {| CurrentGrantExecutable.grantName := qualifiedName gb;
     CurrentGrantExecutable.grantType := grantType gb;
     CurrentGrantExecutable.granteeName := n;
     CurrentGrantExecutable.granteeType := roleType |}.

(** Share returns a CurrentGrantExecutable for a share. *)
Definition Share (gb : t) (n : string) : GrantExecutable :=
  {| CurrentGrantExecutable.grantName := qualifiedName gb;
     CurrentGrantExecutable.grantType := grantType gb;
     CurrentGrantExecutable.granteeName := n;
     CurrentGrantExecutable.granteeType := shareType |}.

End CurrentGrantBuilder.

(** ** CurrentMaterializedViewGrantBuilder *)

Module CurrentMaterializedViewGrantBuilder.

Record t : Type := mk {
  name : string;
  qualifiedName : string;
  grantType : grantType
}.

Definition Name (gb : t) : string := name gb.

Definition GrantType (gb : t) : string := grantType gb.

Definition Show (gb : t) : string :=
  fmt.Sprintf "SHOW GRANTS ON %v %v" [grantType gb; qualifiedName gb].

(** Role and Share record [viewType], whatever the builder's own kind. *)
Definition Role (gb : t) (n : string) : GrantExecutable :=
  {| CurrentGrantExecutable.grantName := qualifiedName gb;
     CurrentGrantExecutable.grantType := viewType;
     CurrentGrantExecutable.granteeName := n;
     CurrentGrantExecutable.granteeType := roleType |}.

Definition Share (gb : t) (n : string) : GrantExecutable :=
  {| CurrentGrantExecutable.grantName := qualifiedName gb;
     CurrentGrantExecutable.grantType := viewType;
     CurrentGrantExecutable.granteeName := n;
     CurrentGrantExecutable.granteeType := shareType |}.

End CurrentMaterializedViewGrantBuilder.

(** ** The interface GrantBuilder

    A value of the interface holds one of the two builder structs; a
    method call dispatches on which. *)

Module GrantBuilder.

Inductive t : Type :=
| OfCurrent (gb : CurrentGrantBuilder.t)
| OfMaterializedView (gb : CurrentMaterializedViewGrantBuilder.t).

Definition Name (b : t) : string :=
  match b with
  | OfCurrent gb => CurrentGrantBuilder.Name gb
  | OfMaterializedView gb => CurrentMaterializedViewGrantBuilder.Name gb
  end.

Definition GrantType (b : t) : string :=
  match b with
  | OfCurrent gb => CurrentGrantBuilder.GrantType gb
  | OfMaterializedView gb => CurrentMaterializedViewGrantBuilder.GrantType gb
  end.

Definition Role (b : t) (n : string) : GrantExecutable :=
  match b with
  | OfCurrent gb => CurrentGrantBuilder.Role gb n
  | OfMaterializedView gb => CurrentMaterializedViewGrantBuilder.Role gb n
  end.

Definition Share (b : t) (n : string) : GrantExecutable :=
  match b with
  | OfCurrent gb => CurrentGrantBuilder.Share gb n
  | OfMaterializedView gb => CurrentMaterializedViewGrantBuilder.Share gb n
  end.

Definition Show (b : t) : string :=
  match b with
  | OfCurrent gb => CurrentGrantBuilder.Show gb
  | OfMaterializedView gb => CurrentMaterializedViewGrantBuilder.Show gb
  end.

End GrantBuilder.

Definition GrantBuilder : Type := GrantBuilder.t.

(** ** The constructors, one per object kind *)

Import fmt strings.

Definition AccountGrant : GrantBuilder :=
  GrantBuilder.OfCurrent
    {| CurrentGrantBuilder.name := EmptyString;
       CurrentGrantBuilder.qualifiedName := EmptyString;
       CurrentGrantBuilder.grantType := accountType |}.

Definition DatabaseGrant (name : string) : GrantBuilder :=
  GrantBuilder.OfCurrent
    {| CurrentGrantBuilder.name := name;
       CurrentGrantBuilder.qualifiedName :=
         Sprintf (dq ++ "%v" ++ dq) [name];
       CurrentGrantBuilder.grantType := databaseType |}.

Definition SchemaGrant (db schema : string) : GrantBuilder :=
  GrantBuilder.OfCurrent
    {| CurrentGrantBuilder.name := schema;
       CurrentGrantBuilder.qualifiedName :=
         Sprintf (dq ++ "%v" ++ dq ++ "." ++ dq ++ "%v" ++ dq) [db; schema];
       CurrentGrantBuilder.grantType := schemaType |}.

Definition StageGrant (db schema stage : string) : GrantBuilder :=
  GrantBuilder.OfCurrent
    {| CurrentGrantBuilder.name := stage;
       CurrentGrantBuilder.qualifiedName :=
         Sprintf (dq ++ "%v" ++ dq ++ "." ++ dq ++ "%v" ++ dq ++ "."
                  ++ dq ++ "%v" ++ dq)
           [db; schema; stage];
       CurrentGrantBuilder.grantType := stageType |}.

Definition ViewGrant (db schema view : string) : GrantBuilder :=
  GrantBuilder.OfCurrent
    {| CurrentGrantBuilder.name := view;
       CurrentGrantBuilder.qualifiedName :=
         Sprintf (dq ++ "%v" ++ dq ++ "." ++ dq ++ "%v" ++ dq ++ "."
                  ++ dq ++ "%v" ++ dq)
           [db; schema; view];
       CurrentGrantBuilder.grantType := viewType |}.

Definition MaterializedViewGrant (db schema view : string) : GrantBuilder :=
  GrantBuilder.OfMaterializedView
    {| CurrentMaterializedViewGrantBuilder.name := view;
       CurrentMaterializedViewGrantBuilder.qualifiedName :=
         Sprintf (dq ++ "%v" ++ dq ++ "." ++ dq ++ "%v" ++ dq ++ "."
                  ++ dq ++ "%v" ++ dq)
           [db; schema; view];
       CurrentMaterializedViewGrantBuilder.grantType := materializedViewType |}.

Definition TableGrant (db schema table : string) : GrantBuilder :=
  GrantBuilder.OfCurrent
    {| CurrentGrantBuilder.name := table;
       CurrentGrantBuilder.qualifiedName :=
         Sprintf (dq ++ "%v" ++ dq ++ "." ++ dq ++ "%v" ++ dq ++ "."
                  ++ dq ++ "%v" ++ dq)
           [db; schema; table];
       CurrentGrantBuilder.grantType := tableType |}.

Definition ResourceMonitorGrant (w : string) : GrantBuilder :=
  GrantBuilder.OfCurrent
    {| CurrentGrantBuilder.name := w;
       CurrentGrantBuilder.qualifiedName := Sprintf (dq ++ "%v" ++ dq) [w];
       CurrentGrantBuilder.grantType := resourceMonitorType |}.

Definition IntegrationGrant (w : string) : GrantBuilder :=
  GrantBuilder.OfCurrent
    {| CurrentGrantBuilder.name := w;
       CurrentGrantBuilder.qualifiedName := Sprintf (dq ++ "%v" ++ dq) [w];
       CurrentGrantBuilder.grantType := integrationType |}.

Definition WarehouseGrant (w : string) : GrantBuilder :=
  GrantBuilder.OfCurrent
    {| CurrentGrantBuilder.name := w;
       CurrentGrantBuilder.qualifiedName := Sprintf (dq ++ "%v" ++ dq) [w];
       CurrentGrantBuilder.grantType := warehouseType |}.

Definition ExternalTableGrant (db schema externalTable : string) : GrantBuilder :=
  GrantBuilder.OfCurrent
    {| CurrentGrantBuilder.name := externalTable;
       CurrentGrantBuilder.qualifiedName :=
         Sprintf (dq ++ "%v" ++ dq ++ "." ++ dq ++ "%v" ++ dq ++ "."
                  ++ dq ++ "%v" ++ dq)
           [db; schema; externalTable];
       CurrentGrantBuilder.grantType := externalTableType |}.

Definition FileFormatGrant (db schema fileFormat : string) : GrantBuilder :=
  GrantBuilder.OfCurrent
    {| CurrentGrantBuilder.name := fileFormat;
       CurrentGrantBuilder.qualifiedName :=
         Sprintf (dq ++ "%v" ++ dq ++ "." ++ dq ++ "%v" ++ dq ++ "."
                  ++ dq ++ "%v" ++ dq)
           [db; schema; fileFormat];
       CurrentGrantBuilder.grantType := fileFormatType |}.

Definition FunctionGrant (db schema function : string)
    (argumentTypes : list string) : GrantBuilder :=
  GrantBuilder.OfCurrent
    {| CurrentGrantBuilder.name := function;
       CurrentGrantBuilder.qualifiedName :=
         Sprintf (dq ++ "%v" ++ dq ++ "." ++ dq ++ "%v" ++ dq ++ "."
                  ++ dq ++ "%v" ++ dq ++ "(%v)")
           [db; schema; function; Join argumentTypes ", "];
       CurrentGrantBuilder.grantType := functionType |}.

Definition ProcedureGrant (db schema procedure : string)
    (argumentTypes : list string) : GrantBuilder :=
  GrantBuilder.OfCurrent
    {| CurrentGrantBuilder.name := procedure;
       CurrentGrantBuilder.qualifiedName :=
         Sprintf (dq ++ "%v" ++ dq ++ "." ++ dq ++ "%v" ++ dq ++ "."
                  ++ dq ++ "%v" ++ dq ++ "(%v)")
           [db; schema; procedure; Join argumentTypes ", "];
       CurrentGrantBuilder.grantType := procedureType |}.

Definition SequenceGrant (db schema sequence : string) : GrantBuilder :=
  GrantBuilder.OfCurrent
    {| CurrentGrantBuilder.name := sequence;
       CurrentGrantBuilder.qualifiedName :=
         Sprintf (dq ++ "%v" ++ dq ++ "." ++ dq ++ "%v" ++ dq ++ "."
                  ++ dq ++ "%v" ++ dq)
           [db; schema; sequence];
       CurrentGrantBuilder.grantType := sequenceType |}.

Definition StreamGrant (db schema stream : string) : GrantBuilder :=
  GrantBuilder.OfCurrent
    {| CurrentGrantBuilder.name := stream;
       CurrentGrantBuilder.qualifiedName :=
         Sprintf (dq ++ "%v" ++ dq ++ "." ++ dq ++ "%v" ++ dq ++ "."
                  ++ dq ++ "%v" ++ dq)
           [db; schema; stream];
       CurrentGrantBuilder.grantType := streamType |}.

(** [quoted s] is [s] between two double quotes: the text the statements
    are compared with below is written with it. *)
Definition quoted (s : string) : string := dq ++ s ++ dq.

(** ** Occurrences of a fixed text in a rendered statement

    A statement is a chain: a leading literal, then operands, each
    followed by a literal.  The tests below look only at the literals and
    decide that a text [pat] cannot begin, end or pass through any of
    them; an occurrence of [pat] in the chain then lies inside one
    operand. *)

Definition occurs (pat s : string) : Prop :=
  exists pre post, s = pre ++ pat ++ post.

Definition chain (lit : string) (rest : list (string * string)) : string :=
  lit ++ fold_right (fun xl acc => fst xl ++ snd xl ++ acc) EmptyString rest.

(** The ways to cut [v] in two non-empty parts, [u] being what was cut off
    before. *)
Fixpoint cuts_from (u v : string) : list (string * string) :=
  match v with
  | EmptyString => []
  | String c v' =>
      let u' := u ++ String c EmptyString in
      match v' with
      | EmptyString => []
      | String _ _ => (u', v') :: cuts_from u' v'
      end
  end.

Definition cuts (pat : string) : list (string * string) :=
  cuts_from EmptyString pat.

(** No beginning of [pat] is pending at the end of [lit]. *)
Definition no_tail (pat lit : string) : bool :=
  forallb (fun uv => negb (HasSuffix lit (fst uv))) (cuts pat).

(** No end of [pat] starts [lit]. *)
Definition no_head (pat lit : string) : bool :=
  forallb (fun uv => negb (HasPrefix lit (snd uv))) (cuts pat).

(** No beginning of [pat] is pending at the end of [x ++ lit], whatever
    [x] is. *)
Definition no_carry (pat lit : string) : bool :=
  forallb (fun uv => negb (HasSuffix lit (fst uv) || HasSuffix (fst uv) lit))
    (cuts pat).

Definition opens (pat lit : string) : bool :=
  negb (Contains lit pat) && no_tail pat lit.

Definition seals (pat lit : string) : bool :=
  negb (Contains lit pat) && no_head pat lit && no_carry pat lit.

Definition closes (pat lit : string) : bool :=
  negb (Contains lit pat) && no_head pat lit.

Fixpoint lits_ok (pat : string) (lits : list string) : bool :=
  match lits with
  | [] => true
  | [l] => closes pat l
  | l :: ls => seals pat l && lits_ok pat ls
  end.

Definition chain_ok (pat lit : string) (lits : list string) : bool :=
  match lits with
  | [] => negb (Contains lit pat)
  | _ => opens pat lit && lits_ok pat lits
  end.

(** ** Vocabulary of the statements

    The const blocks of the source, as lists. *)

Definition grantTypes : list grantType :=
  [accountType; resourceMonitorType; integrationType; databaseType;
   schemaType; stageType; viewType; materializedViewType; tableType;
   warehouseType; externalTableType; fileFormatType; functionType;
   procedureType; sequenceType; streamType].

Definition granteeTypes : list granteeType := [roleType; shareType; userType].

(** What the three templates of Grant put after the grantee name. *)
Definition grant_suffix (p : string) (w : bool) : string :=
  if (p =? "OWNERSHIP")%string then " COPY CURRENT GRANTS"
  else if w then " WITH GRANT OPTION"
  else EmptyString.

(** The literals of a Grant or Revoke statement once the object kind [gt]
    and the grantee kind [gk] are fixed: what follows the privilege, the
    qualified name and the grantee name.  [prep] is TO or FROM between
    spaces, [tail] what the template has after the closing quote. *)
Definition statement_lits (prep gt gk tail : string) : list string :=
  [" ON " ++ gt ++ " "; prep ++ gk ++ " " ++ dq; dq ++ tail].

(** [pat] passes the check for every object kind and grantee kind of the
    const blocks. *)
Definition statements_ok (pat verb prep tail : string) : bool :=
  forallb (fun gt =>
    forallb (fun gk => chain_ok pat verb (statement_lits prep gt gk tail))
      granteeTypes) grantTypes.

(** A delimited identifier of the SQL dialect: an opening double quote, a
    body in which a double quote appears only doubled, a closing double
    quote.  [delimited_body] reads what follows the opening quote. *)
Fixpoint delimited_body (s : string) : bool :=
  match s with
  | EmptyString => false
  | String c s' =>
      if Ascii.eqb c "034" then
        match s' with
        | EmptyString => true
        | String d s'' => Ascii.eqb d "034" && delimited_body s''
        end
      else delimited_body s'
  end.

Definition delimited_identifier (s : string) : bool :=
  match s with
  | EmptyString => false
  | String c s' => Ascii.eqb c "034" && delimited_body s'
  end.

(** ** The builders the package makes

    [Constructed parts b]: [b] is the result of one of the sixteen
    constructors, called with the strings [parts] in the order of its
    parameters (for a function or a procedure the argument types follow
    the three name parts). *)
Inductive Constructed : list string -> GrantBuilder -> Prop :=
| Constructed_Account : Constructed [] AccountGrant
| Constructed_Database name : Constructed [name] (DatabaseGrant name)
| Constructed_Schema db schema : Constructed [db; schema] (SchemaGrant db schema)
| Constructed_Stage db schema stage :
    Constructed [db; schema; stage] (StageGrant db schema stage)
| Constructed_View db schema view :
    Constructed [db; schema; view] (ViewGrant db schema view)
| Constructed_MaterializedView db schema view :
    Constructed [db; schema; view] (MaterializedViewGrant db schema view)
| Constructed_Table db schema table :
    Constructed [db; schema; table] (TableGrant db schema table)
| Constructed_ResourceMonitor w : Constructed [w] (ResourceMonitorGrant w)
| Constructed_Integration w : Constructed [w] (IntegrationGrant w)
| Constructed_Warehouse w : Constructed [w] (WarehouseGrant w)
| Constructed_ExternalTable db schema externalTable :
    Constructed [db; schema; externalTable]
      (ExternalTableGrant db schema externalTable)
| Constructed_FileFormat db schema fileFormat :
    Constructed [db; schema; fileFormat] (FileFormatGrant db schema fileFormat)
| Constructed_Function db schema function argumentTypes :
    Constructed (db :: schema :: function :: argumentTypes)
      (FunctionGrant db schema function argumentTypes)
| Constructed_Procedure db schema procedure argumentTypes :
    Constructed (db :: schema :: procedure :: argumentTypes)
      (ProcedureGrant db schema procedure argumentTypes)
| Constructed_Sequence db schema sequence :
    Constructed [db; schema; sequence] (SequenceGrant db schema sequence)
| Constructed_Stream db schema stream :
    Constructed [db; schema; stream] (StreamGrant db schema stream).

(** The constructors that take a database, a schema and an object name. *)
Definition threePartConstructors : list (string -> string -> string -> GrantBuilder) :=
  [StageGrant; ViewGrant; MaterializedViewGrant; TableGrant; ExternalTableGrant;
   FileFormatGrant; SequenceGrant; StreamGrant].

(** The constructors that take one name. *)
Definition onePartConstructors : list (string -> GrantBuilder) :=
  [DatabaseGrant; ResourceMonitorGrant; IntegrationGrant; WarehouseGrant].

(** The two clauses that the templates of Grant can add. *)
Definition clauses : list string := ["WITH GRANT OPTION"; "COPY CURRENT GRANTS"].

(** Every string of [l] is free of [pat]. *)
Definition all_free (pat : string) (l : list string) : bool :=
  forallb (fun s => negb (Contains s pat)) l.

(** The last character of a string. *)
Fixpoint last_char (s : string) : option ascii :=
  match s with
  | EmptyString => None
  | String c s' =>
      match s' with
      | EmptyString => Some c
      | String _ _ => last_char s'
      end
  end.

(** No kind keyword followed by a space starts another one followed by a
    space. *)
Definition kinds_apart : bool :=
  forallb (fun k =>
    forallb (fun k' =>
      String.eqb k k'
      || negb (HasPrefix (k ++ " ") (k' ++ " ") || HasPrefix (k' ++ " ") (k ++ " ")))
      grantTypes) grantTypes.

(** * Properties *)

(** ** Strings: append, prefixes, suffixes, occurrences *)

Section StringFacts.

Lemma append_assoc (a b c : string) : (a ++ b) ++ c = a ++ b ++ c.
Proof. induction a as [|x a IH]; simpl; [reflexivity | now rewrite IH]. Qed.

Lemma append_nil_r (a : string) : a ++ EmptyString = a.
Proof. induction a as [|x a IH]; simpl; [reflexivity | now rewrite IH]. Qed.

Lemma append_inv_head (a b c : string) : a ++ b = a ++ c -> b = c.
Proof.
  induction a as [|x a IH]; simpl; intros H; [exact H |].
  injection H as H. now apply IH.
Qed.

Lemma append_eq_nil (a b : string) :
  a ++ b = EmptyString -> a = EmptyString /\ b = EmptyString.
Proof. destruct a; simpl; intros H; [now split | discriminate]. Qed.

(** Two ways to cut the same string differ by a middle part. *)
Lemma append_eq_split (a b c d : string) :
  a ++ b = c ++ d ->
  exists m, (c = a ++ m /\ b = m ++ d) \/ (a = c ++ m /\ d = m ++ b).
Proof.
  revert c; induction a as [|x a IH]; intros c H; simpl in H.
  - exists c. left. now split.
  - destruct c as [|y c]; simpl in H.
    + exists (String x a). right. now split.
    + injection H as -> H. destruct (IH _ H) as [m [[-> ->] | [-> ->]]];
        exists m; [left | right]; now split.
Qed.

Lemma HasPrefix_spec (s pre : string) :
  HasPrefix s pre = true <-> exists r, s = pre ++ r.
Proof.
  revert s; induction pre as [|c pre IH]; intros s; simpl.
  - split; [intros _; now exists s | reflexivity].
  - destruct s as [|d s].
    + split; [discriminate | intros [r H]; discriminate].
    + rewrite andb_true_iff, Ascii.eqb_eq, IH. split.
      * intros [-> [r ->]]. now exists r.
      * intros [r H]. injection H as -> ->. split; [reflexivity | now exists r].
Qed.

Lemma Contains_spec (s pat : string) :
  Contains s pat = true <-> occurs pat s.
Proof.
  unfold occurs. induction s as [|c s IH]; simpl.
  - rewrite orb_false_r, HasPrefix_spec. split.
    + intros [r H]. now exists EmptyString, r.
    + intros [pre [post H]]. destruct pre; simpl in H; [now exists post | discriminate].
  - rewrite orb_true_iff, HasPrefix_spec, IH. split.
    + intros [[r H] | [pre [post H]]].
      * now exists EmptyString, r.
      * exists (String c pre), post. simpl. now rewrite H.
    + intros [pre [post H]]. destruct pre as [|d pre]; simpl in H.
      * left. now exists post.
      * right. injection H as _ H. now exists pre, post.
Qed.

Lemma Contains_false (s pat : string) :
  Contains s pat = false <-> ~ occurs pat s.
Proof.
  rewrite <- Contains_spec. destruct (Contains s pat); split; congruence.
Qed.

Lemma HasSuffix_spec (s suf : string) :
  HasSuffix s suf = true <-> exists r, s = r ++ suf.
Proof.
  induction s as [|c s IH]; cbn [HasSuffix].
  - rewrite orb_false_r, String.eqb_eq. split.
    + intros <-. now exists EmptyString.
    + intros [r H]. symmetry in H. now apply append_eq_nil in H.
  - rewrite orb_true_iff, String.eqb_eq, IH. split.
    + intros [<- | [r ->]]; [now exists EmptyString | now exists (String c r)].
    + intros [r H]. destruct r as [|d r]; simpl in H.
      * now left.
      * right. injection H as _ H. now exists r.
Qed.

Lemma occurs_append_l (pat a b : string) : occurs pat a -> occurs pat (a ++ b).
Proof.
  intros [pre [post ->]]. exists pre, (post ++ b).
  now rewrite !append_assoc.
Qed.

Lemma occurs_append_r (pat a b : string) : occurs pat b -> occurs pat (a ++ b).
Proof.
  intros [pre [post ->]]. exists (a ++ pre), post.
  now rewrite !append_assoc.
Qed.

(** An occurrence in [a ++ b] lies in [a], lies in [b], or is cut by the
    seam. *)
Lemma occurs_append_inv (pat a b : string) :
  occurs pat (a ++ b) ->
  occurs pat a \/ occurs pat b \/
  exists u v, u <> EmptyString /\ v <> EmptyString /\ pat = u ++ v /\
              (exists a', a = a' ++ u) /\ (exists b', b = v ++ b').
Proof.
  intros [pre [post H]].
  destruct (append_eq_split _ _ _ _ H) as [m [[-> ->] | [-> H2]]].
  - right; left. now exists m, post.
  - destruct (append_eq_split _ _ _ _ H2) as [k [[-> ->] | [Hp ->]]].
    + left. now exists pre, k.
    + destruct m as [|c m]; [| destruct k as [|d k]].
      * right; left. exists EmptyString, post. simpl in Hp. now rewrite Hp.
      * left. exists pre, EmptyString. now rewrite Hp, !append_nil_r.
      * right; right. exists (String c m), (String d k).
        repeat split; try discriminate; [exact Hp | now exists pre | now exists post].
Qed.

End StringFacts.

(** ** Chains: an occurrence lies inside one operand *)

Section Chains.

Variable pat : string.

Lemma cuts_from_complete (u v u0 : string) :
  u <> EmptyString -> v <> EmptyString ->
  In (u0 ++ u, v) (cuts_from u0 (u ++ v)).
Proof.
  revert u0; induction u as [|c u IH]; intros u0 Hu Hv; [congruence |].
  destruct u as [|e u1].
  - destruct v as [|d v']; [congruence |]. simpl. now left.
  - cbn [append cuts_from]. right.
    replace (u0 ++ String c (String e u1))
      with ((u0 ++ String c EmptyString) ++ String e u1)
      by now rewrite append_assoc.
    apply (IH (u0 ++ String c EmptyString)); [discriminate | exact Hv].
Qed.

Lemma cuts_complete (u v : string) :
  u <> EmptyString -> v <> EmptyString -> pat = u ++ v -> In (u, v) (cuts pat).
Proof.
  intros Hu Hv ->. exact (cuts_from_complete u v EmptyString Hu Hv).
Qed.

Lemma opens_occurs (lit y : string) :
  opens pat lit = true -> occurs pat (lit ++ y) -> occurs pat y.
Proof.
  unfold opens, no_tail. rewrite andb_true_iff, negb_true_iff, forallb_forall.
  intros [Hc Ht] H.
  destruct (occurs_append_inv _ _ _ H) as [Hl | [Hy | (u & v & Hu & Hv & Hp & Ha & _)]].
  - apply Contains_spec in Hl. congruence.
  - exact Hy.
  - specialize (Ht _ (cuts_complete u v Hu Hv Hp)). simpl in Ht.
    apply HasSuffix_spec in Ha. rewrite Ha in Ht. discriminate.
Qed.

Lemma closes_occurs (x lit : string) :
  closes pat lit = true -> occurs pat (x ++ lit) -> occurs pat x.
Proof.
  unfold closes, no_head. rewrite andb_true_iff, negb_true_iff, forallb_forall.
  intros [Hc Hh] H.
  destruct (occurs_append_inv _ _ _ H) as [Hx | [Hl | (u & v & Hu & Hv & Hp & _ & Hb)]].
  - exact Hx.
  - apply Contains_spec in Hl. congruence.
  - specialize (Hh _ (cuts_complete u v Hu Hv Hp)). simpl in Hh.
    apply HasPrefix_spec in Hb. rewrite Hb in Hh. discriminate.
Qed.

Lemma seals_occurs (x lit y : string) :
  seals pat lit = true -> occurs pat (x ++ lit ++ y) ->
  occurs pat x \/ occurs pat y.
Proof.
  unfold seals, no_carry. rewrite !andb_true_iff, forallb_forall.
  intros [[Hc Hh] Hk] H. rewrite <- append_assoc in H.
  destruct (occurs_append_inv _ _ _ H) as [Hxl | [Hy | (u & v & Hu & Hv & Hp & [a' Ha] & _)]].
  - left. apply (closes_occurs x lit); [| exact Hxl].
    unfold closes. now rewrite Hc, Hh.
  - now right.
  - specialize (Hk _ (cuts_complete u v Hu Hv Hp)). simpl in Hk.
    apply negb_true_iff, orb_false_iff in Hk. destruct Hk as [Hk1 Hk2].
    destruct (append_eq_split _ _ _ _ Ha) as [m [[_ Hl] | [_ Hl]]].
    + assert (HasSuffix lit u = true) by (apply HasSuffix_spec; now exists m).
      congruence.
    + assert (HasSuffix u lit = true) by (apply HasSuffix_spec; now exists m).
      congruence.
Qed.

Lemma lits_occurs (rest : list (string * string)) :
  rest <> [] ->
  lits_ok pat (map snd rest) = true ->
  occurs pat (fold_right (fun xl acc => fst xl ++ snd xl ++ acc) EmptyString rest) ->
  Exists (fun xl => occurs pat (fst xl)) rest.
Proof.
  induction rest as [|[x l] rest IH]; intros Hne Hok H; [congruence |].
  destruct rest as [|yl rest].
  - simpl in Hok, H. rewrite append_nil_r in H.
    apply Exists_cons_hd. simpl. exact (closes_occurs x l Hok H).
  - cbn [map snd lits_ok] in Hok. apply andb_true_iff in Hok.
    destruct Hok as [Hs Hok]. cbn [fold_right fst snd] in H.
    destruct (seals_occurs x l _ Hs H) as [Hx | Hr].
    + now apply Exists_cons_hd.
    + apply Exists_cons_tl. apply IH; [discriminate | exact Hok | exact Hr].
Qed.

Lemma chain_occurs (lit : string) (rest : list (string * string)) :
  chain_ok pat lit (map snd rest) = true ->
  occurs pat (chain lit rest) ->
  Exists (fun xl => occurs pat (fst xl)) rest.
Proof.
  unfold chain, chain_ok. destruct rest as [|xl rest]; intros Hok H.
  - simpl in Hok, H. rewrite append_nil_r in H.
    apply negb_true_iff in Hok. apply Contains_spec in H. congruence.
  - cbn [map] in Hok. apply andb_true_iff in Hok. destruct Hok as [Ho Hl].
    apply lits_occurs; [discriminate | exact Hl |].
    exact (opens_occurs lit _ Ho H).
Qed.

(** The form used below: when no operand contains [pat], neither does the
    chain. *)
Theorem chain_free (lit : string) (rest : list (string * string)) :
  chain_ok pat lit (map snd rest) = true ->
  forallb (fun xl => negb (Contains (fst xl) pat)) rest = true ->
  Contains (chain lit rest) pat = false.
Proof.
  intros Hok Hfree. apply Contains_false. intros H.
  apply (chain_occurs lit rest Hok) in H. apply Exists_exists in H.
  destruct H as [xl [Hin Hocc]]. rewrite forallb_forall in Hfree.
  specialize (Hfree xl Hin). apply negb_true_iff in Hfree.
  apply Contains_spec in Hocc. congruence.
Qed.

End Chains.

(** ** What the three methods of an executable render *)

Section Rendering.

Import CurrentGrantExecutable.

Variable ge : CurrentGrantExecutable.t.

Lemma Grant_render (p : string) (w : bool) :
  Grant ge p w =
  "GRANT " ++ p ++ " ON " ++ grantType ge ++ " " ++ grantName ge ++ " TO "
  ++ granteeType ge ++ " " ++ dq ++ granteeName ge ++ dq ++ grant_suffix p w.
Proof.
  unfold Grant, grant_suffix.
  destruct (p =? "OWNERSHIP")%string; [| destruct w]; reflexivity.
Qed.

Lemma Revoke_render (p : string) :
  Revoke ge p =
  "REVOKE " ++ p ++ " ON " ++ grantType ge ++ " " ++ grantName ge ++ " FROM "
  ++ granteeType ge ++ " " ++ dq ++ granteeName ge ++ dq.
Proof. reflexivity. Qed.

Lemma Show_render :
  Show ge = "SHOW GRANTS OF " ++ granteeType ge ++ " " ++ dq ++ granteeName ge ++ dq.
Proof. reflexivity. Qed.

End Rendering.

Lemma quoted_append (s rest : string) : quoted s ++ rest = dq ++ s ++ dq ++ rest.
Proof. unfold quoted. now rewrite !append_assoc. Qed.

(** Brings both sides of a statement equation to right-nested appends. *)
Ltac flatten :=
  unfold quoted; cbn; repeat (rewrite !append_assoc; cbn);
  rewrite ?append_nil_r.

(** ** The claims *)

(** C1 (as the code has it).  The account-level builder has an empty
    qualified name, and Show() still writes the separator that precedes
    it: the statement is SHOW GRANTS ON ACCOUNT followed by one space. *)
Theorem AccountGrant_Show_trailing_space :
  GrantBuilder.Name AccountGrant = EmptyString
  /\ GrantBuilder.Show AccountGrant = "SHOW GRANTS ON ACCOUNT" ++ " "
  /\ GrantBuilder.Show AccountGrant =
     "SHOW GRANTS ON " ++ GrantBuilder.GrantType AccountGrant ++ " "
  /\ HasSuffix (GrantBuilder.Show AccountGrant) " " = true
  /\ String.length (GrantBuilder.Show AccountGrant)
     = S (String.length "SHOW GRANTS ON ACCOUNT").
Proof. repeat split. Qed.

(** C1, refuted as stated: the text returned is not the statement without
    trailing space. *)
Lemma AccountGrant_Show_not_bare :
  GrantBuilder.Show AccountGrant <> "SHOW GRANTS ON ACCOUNT".
Proof. discriminate. Qed.

(** C3.  With the privilege OWNERSHIP, Grant renders the COPY CURRENT
    GRANTS statement, the same for both values of the grant-option flag;
    the schema example of the specification; and the comparison is exact:
    the lower-case spelling takes the ordinary branches. *)
Theorem Grant_ownership_copy_current_grants :
  (forall (ge : GrantExecutable) (w : bool),
      CurrentGrantExecutable.Grant ge "OWNERSHIP" w =
      "GRANT OWNERSHIP ON " ++ CurrentGrantExecutable.grantType ge ++ " "
      ++ CurrentGrantExecutable.grantName ge ++ " TO "
      ++ CurrentGrantExecutable.granteeType ge ++ " "
      ++ quoted (CurrentGrantExecutable.granteeName ge)
      ++ " COPY CURRENT GRANTS")
  /\ (forall ge : GrantExecutable,
      CurrentGrantExecutable.Grant ge "OWNERSHIP" true =
      CurrentGrantExecutable.Grant ge "OWNERSHIP" false)
  /\ CurrentGrantExecutable.Grant
       (GrantBuilder.Role (SchemaGrant "DB" "SCH") "ADMIN") "OWNERSHIP" false =
     "GRANT OWNERSHIP ON SCHEMA " ++ quoted "DB" ++ "." ++ quoted "SCH"
     ++ " TO ROLE " ++ quoted "ADMIN" ++ " COPY CURRENT GRANTS"
  /\ (forall ge : GrantExecutable,
      CurrentGrantExecutable.Grant ge "ownership" true =
      "GRANT ownership ON " ++ CurrentGrantExecutable.grantType ge ++ " "
      ++ CurrentGrantExecutable.grantName ge ++ " TO "
      ++ CurrentGrantExecutable.granteeType ge ++ " "
      ++ quoted (CurrentGrantExecutable.granteeName ge)
      ++ " WITH GRANT OPTION").
Proof.
  repeat split; intros; try reflexivity;
    rewrite Grant_render; flatten; reflexivity.
Qed.

(** C6.  Show() of an executable names the grantee only: SHOW GRANTS OF,
    the grantee kind, the quoted grantee name.  Two executables with the
    same grantee render the same text whatever their target object. *)
Theorem GrantExecutable_Show_of_grantee :
  (forall ge : GrantExecutable,
      CurrentGrantExecutable.Show ge =
      "SHOW GRANTS OF " ++ CurrentGrantExecutable.granteeType ge ++ " "
      ++ quoted (CurrentGrantExecutable.granteeName ge))
  /\ (forall (gn gn' : string) (gt gt' : grantType) (n : string) (k : granteeType),
      CurrentGrantExecutable.Show (CurrentGrantExecutable.mk gn gt n k) =
      CurrentGrantExecutable.Show (CurrentGrantExecutable.mk gn' gt' n k))
  /\ CurrentGrantExecutable.Show (GrantBuilder.Share (WarehouseGrant "WH1") "PARTNER")
     = "SHOW GRANTS OF SHARE " ++ quoted "PARTNER".
Proof. repeat split. Qed.

(** C7.  FunctionGrant and ProcedureGrant: the three quoted name parts
    joined by dots, then the argument types as they are, separated by a
    comma and a space, between parentheses.  [String.concat] of the
    standard library is the reference for the separated list. *)
Theorem Function_Procedure_qualified_name :
  (forall (db schema name : string) (argumentTypes : list string),
      FunctionGrant db schema name argumentTypes =
      GrantBuilder.OfCurrent
        (CurrentGrantBuilder.mk name
           (quoted db ++ "." ++ quoted schema ++ "." ++ quoted name
            ++ "(" ++ String.concat ", " argumentTypes ++ ")")
           functionType))
  /\ (forall (db schema name : string) (argumentTypes : list string),
      ProcedureGrant db schema name argumentTypes =
      GrantBuilder.OfCurrent
        (CurrentGrantBuilder.mk name
           (quoted db ++ "." ++ quoted schema ++ "." ++ quoted name
            ++ "(" ++ String.concat ", " argumentTypes ++ ")")
           procedureType))
  /\ (forall db schema name : string,
      FunctionGrant db schema name [] =
      GrantBuilder.OfCurrent
        (CurrentGrantBuilder.mk name
           (quoted db ++ "." ++ quoted schema ++ "." ++ quoted name ++ "()")
           functionType)
      /\ ProcedureGrant db schema name [] =
      GrantBuilder.OfCurrent
        (CurrentGrantBuilder.mk name
           (quoted db ++ "." ++ quoted schema ++ "." ++ quoted name ++ "()")
           procedureType))
  /\ FunctionGrant "DB" "S" "F" ["NUMBER"; "VARCHAR"] =
     GrantBuilder.OfCurrent
       (CurrentGrantBuilder.mk "F"
          (quoted "DB" ++ "." ++ quoted "S" ++ "." ++ quoted "F"
           ++ "(NUMBER, VARCHAR)")
          functionType)
  /\ ProcedureGrant "DB" "S" "F" ["NUMBER"; "VARCHAR"] =
     GrantBuilder.OfCurrent
       (CurrentGrantBuilder.mk "F"
          (quoted "DB" ++ "." ++ quoted "S" ++ "." ++ quoted "F"
           ++ "(NUMBER, VARCHAR)")
          procedureType)
  /\ GrantBuilder.Show (FunctionGrant "DB" "S" "F" ["NUMBER"; "VARCHAR"]) =
     "SHOW GRANTS ON FUNCTION " ++ quoted "DB" ++ "." ++ quoted "S" ++ "."
     ++ quoted "F" ++ "(NUMBER, VARCHAR)".
Proof.
  assert (J : forall l, Join l ", " = String.concat ", " l).
  { induction l as [|a [|b l] IH]; try reflexivity.
    change (a ++ ", " ++ Join (b :: l) ", " = a ++ ", " ++ String.concat ", " (b :: l)).
    now rewrite IH. }
  repeat split; intros; try reflexivity;
    unfold FunctionGrant, ProcedureGrant; rewrite ?J; flatten; reflexivity.
Qed.

(** C8.  The builders that take a database, a schema and an object name
    quote each part and join the three with dots; the table example of
    the specification, end to end. *)
Theorem three_part_qualified_names :
  (forall db schema object : string,
      let qn := quoted db ++ "." ++ quoted schema ++ "." ++ quoted object in
      StageGrant db schema object =
        GrantBuilder.OfCurrent (CurrentGrantBuilder.mk object qn stageType)
      /\ ViewGrant db schema object =
        GrantBuilder.OfCurrent (CurrentGrantBuilder.mk object qn viewType)
      /\ MaterializedViewGrant db schema object =
        GrantBuilder.OfMaterializedView
          (CurrentMaterializedViewGrantBuilder.mk object qn materializedViewType)
      /\ TableGrant db schema object =
        GrantBuilder.OfCurrent (CurrentGrantBuilder.mk object qn tableType)
      /\ ExternalTableGrant db schema object =
        GrantBuilder.OfCurrent (CurrentGrantBuilder.mk object qn externalTableType)
      /\ FileFormatGrant db schema object =
        GrantBuilder.OfCurrent (CurrentGrantBuilder.mk object qn fileFormatType)
      /\ SequenceGrant db schema object =
        GrantBuilder.OfCurrent (CurrentGrantBuilder.mk object qn sequenceType)
      /\ StreamGrant db schema object =
        GrantBuilder.OfCurrent (CurrentGrantBuilder.mk object qn streamType))
  /\ CurrentGrantExecutable.Grant
       (GrantBuilder.Role (TableGrant "DB" "SCH" "T") "ANALYST") "SELECT" false =
     "GRANT SELECT ON TABLE " ++ quoted "DB" ++ "." ++ quoted "SCH" ++ "."
     ++ quoted "T" ++ " TO ROLE " ++ quoted "ANALYST".
Proof.
  split; [| reflexivity]. intros db schema object qn. subst qn.
  unfold StageGrant, ViewGrant, MaterializedViewGrant, TableGrant,
    ExternalTableGrant, FileFormatGrant, SequenceGrant, StreamGrant.
  repeat split; flatten; reflexivity.
Qed.

Lemma occurs_here (pat rest : string) : occurs pat (pat ++ rest).
Proof. now exists EmptyString, rest. Qed.

(** Finds [pat] as one of the pieces of a right-nested append. *)
Ltac find_piece :=
  apply Contains_spec;
  repeat first [apply occurs_here | apply occurs_append_r].

(** Two right-nested appends that agree up to a piece where they differ by
    a character are different. *)
Ltac differ H :=
  repeat first [apply append_inv_head in H | injection H as H];
  discriminate H.

(** C9.  Role(n) and Share(n), on either builder type, give the grantee
    kind ROLE, respectively SHARE, and neither is USER.  Hence the three
    statements carry ROLE or SHARE where the grantee kind goes: they are
    the texts shown, they contain the keyword, and they are not the texts
    that the same executable with kind USER renders. *)
Theorem builders_reach_role_and_share_only :
  (forall (b : GrantBuilder) (n : string),
      CurrentGrantExecutable.granteeType (GrantBuilder.Role b n) = roleType
      /\ CurrentGrantExecutable.granteeType (GrantBuilder.Share b n) = shareType)
  /\ roleType <> userType /\ shareType <> userType
  /\ (forall (b : GrantBuilder) (n p : string) (w : bool),
      let ge := GrantBuilder.Role b n in
      let target := CurrentGrantExecutable.grantType ge ++ " "
                    ++ CurrentGrantExecutable.grantName ge in
      let user := CurrentGrantExecutable.mk
                    (CurrentGrantExecutable.grantName ge)
                    (CurrentGrantExecutable.grantType ge) n userType in
      (CurrentGrantExecutable.Grant ge p w =
         "GRANT " ++ p ++ " ON " ++ target ++ " TO ROLE " ++ quoted n
         ++ grant_suffix p w
       /\ CurrentGrantExecutable.Revoke ge p =
         "REVOKE " ++ p ++ " ON " ++ target ++ " FROM ROLE " ++ quoted n
       /\ CurrentGrantExecutable.Show ge = "SHOW GRANTS OF ROLE " ++ quoted n)
      /\ (Contains (CurrentGrantExecutable.Grant ge p w) "ROLE" = true
          /\ Contains (CurrentGrantExecutable.Revoke ge p) "ROLE" = true
          /\ Contains (CurrentGrantExecutable.Show ge) "ROLE" = true)
      /\ (CurrentGrantExecutable.Grant ge p w <> CurrentGrantExecutable.Grant user p w
          /\ CurrentGrantExecutable.Revoke ge p <> CurrentGrantExecutable.Revoke user p
          /\ CurrentGrantExecutable.Show ge <> CurrentGrantExecutable.Show user))
  /\ (forall (b : GrantBuilder) (n p : string) (w : bool),
      let ge := GrantBuilder.Share b n in
      let target := CurrentGrantExecutable.grantType ge ++ " "
                    ++ CurrentGrantExecutable.grantName ge in
      let user := CurrentGrantExecutable.mk
                    (CurrentGrantExecutable.grantName ge)
                    (CurrentGrantExecutable.grantType ge) n userType in
      (CurrentGrantExecutable.Grant ge p w =
         "GRANT " ++ p ++ " ON " ++ target ++ " TO SHARE " ++ quoted n
         ++ grant_suffix p w
       /\ CurrentGrantExecutable.Revoke ge p =
         "REVOKE " ++ p ++ " ON " ++ target ++ " FROM SHARE " ++ quoted n
       /\ CurrentGrantExecutable.Show ge = "SHOW GRANTS OF SHARE " ++ quoted n)
      /\ (Contains (CurrentGrantExecutable.Grant ge p w) "SHARE" = true
          /\ Contains (CurrentGrantExecutable.Revoke ge p) "SHARE" = true
          /\ Contains (CurrentGrantExecutable.Show ge) "SHARE" = true)
      /\ (CurrentGrantExecutable.Grant ge p w <> CurrentGrantExecutable.Grant user p w
          /\ CurrentGrantExecutable.Revoke ge p <> CurrentGrantExecutable.Revoke user p
          /\ CurrentGrantExecutable.Show ge <> CurrentGrantExecutable.Show user)).
Proof.
  split; [intros [gb | gb] n; split; reflexivity |].
  split; [discriminate |]. split; [discriminate |].
  split; intros b n p w ge target user; subst ge target user;
    rewrite !Grant_render, !Revoke_render, !Show_render;
    destruct b as [gb | gb];
    cbn [GrantBuilder.Role GrantBuilder.Share
         CurrentGrantBuilder.Role CurrentGrantBuilder.Share
         CurrentMaterializedViewGrantBuilder.Role
         CurrentMaterializedViewGrantBuilder.Share
         CurrentGrantExecutable.grantName CurrentGrantExecutable.grantType
         CurrentGrantExecutable.granteeName CurrentGrantExecutable.granteeType];
    (split; [repeat split; unfold quoted; rewrite ?append_assoc; reflexivity |]);
    (split; [repeat split; find_piece |]);
    repeat split; intros H; differ H.
Qed.

(** A name without double quote, once quoted, is a delimited identifier:
    the recogniser accepts what the builders make of ordinary names. *)
Lemma quoted_plain_is_delimited (s : string) :
  Contains s dq = false -> delimited_identifier (quoted s) = true.
Proof.
  unfold quoted, delimited_identifier. cbn [dq append]. rewrite Ascii.eqb_refl.
  cbn [andb]. induction s as [|c s IH]; intros H; [reflexivity |].
  cbn [Contains HasPrefix dq] in H. apply orb_false_iff in H.
  destruct H as [Hc Hs]. rewrite andb_true_r in Hc.
  cbn [append delimited_body]. rewrite Ascii.eqb_sym, Hc. exact (IH Hs).
Qed.

(** C10.  Names go between double quotes as they are.  Every builder's
    qualified name is made of [quoted] parts of the strings it was given,
    and the three statements of an executable hold the [quoted] grantee
    name, with no condition on the strings.  For the name a, double quote,
    b the qualified name of DatabaseGrant is no delimited identifier, and
    two different (database, schema) pairs give StageGrant the same
    qualified name and the same statements. *)
Theorem names_are_quoted_verbatim :
  (forall s : string,
      DatabaseGrant s =
        GrantBuilder.OfCurrent (CurrentGrantBuilder.mk s (quoted s) databaseType)
      /\ WarehouseGrant s =
        GrantBuilder.OfCurrent (CurrentGrantBuilder.mk s (quoted s) warehouseType)
      /\ ResourceMonitorGrant s =
        GrantBuilder.OfCurrent
          (CurrentGrantBuilder.mk s (quoted s) resourceMonitorType)
      /\ IntegrationGrant s =
        GrantBuilder.OfCurrent (CurrentGrantBuilder.mk s (quoted s) integrationType))
  /\ (forall db s : string,
      SchemaGrant db s =
        GrantBuilder.OfCurrent
          (CurrentGrantBuilder.mk s (quoted db ++ "." ++ quoted s) schemaType))
  /\ (forall db schema s : string,
      StageGrant db schema s =
        GrantBuilder.OfCurrent
          (CurrentGrantBuilder.mk s
             (quoted db ++ "." ++ quoted schema ++ "." ++ quoted s) stageType))
  /\ (forall (ge : GrantExecutable) (p : string) (w : bool),
      CurrentGrantExecutable.Grant ge p w =
        "GRANT " ++ p ++ " ON " ++ CurrentGrantExecutable.grantType ge ++ " "
        ++ CurrentGrantExecutable.grantName ge ++ " TO "
        ++ CurrentGrantExecutable.granteeType ge ++ " "
        ++ quoted (CurrentGrantExecutable.granteeName ge) ++ grant_suffix p w
      /\ CurrentGrantExecutable.Revoke ge p =
        "REVOKE " ++ p ++ " ON " ++ CurrentGrantExecutable.grantType ge ++ " "
        ++ CurrentGrantExecutable.grantName ge ++ " FROM "
        ++ CurrentGrantExecutable.granteeType ge ++ " "
        ++ quoted (CurrentGrantExecutable.granteeName ge)
      /\ CurrentGrantExecutable.Show ge =
        "SHOW GRANTS OF " ++ CurrentGrantExecutable.granteeType ge ++ " "
        ++ quoted (CurrentGrantExecutable.granteeName ge))
  /\ (let s := "a" ++ dq ++ "b" in
      Contains s dq = true
      /\ GrantBuilder.Show (DatabaseGrant s) =
         "SHOW GRANTS ON DATABASE " ++ dq ++ "a" ++ dq ++ "b" ++ dq
      /\ delimited_identifier (quoted s) = false
      /\ delimited_identifier (quoted "ab") = true)
  /\ (let db1 := "a" in
      let schema1 := "b" ++ dq ++ "." ++ dq ++ "c" in
      let db2 := "a" ++ dq ++ "." ++ dq ++ "b" in
      let schema2 := "c" in
      (db1, schema1) <> (db2, schema2)
      /\ StageGrant db1 schema1 "d" = StageGrant db2 schema2 "d").
Proof.
  split; [intros s; repeat split |].
  split; [intros db s; unfold SchemaGrant; flatten; reflexivity |].
  split; [intros db schema s; unfold StageGrant; flatten; reflexivity |].
  split.
  { intros ge p w. rewrite Grant_render, Revoke_render, Show_render.
    unfold quoted. rewrite !append_assoc. repeat split. }
  split; [repeat split |].
  split; [discriminate | reflexivity].
Qed.

(** ** Clause texts inside Grant and Revoke statements *)

Lemma HasSuffix_append_r (a b suf : string) :
  HasSuffix b suf = true -> HasSuffix (a ++ b) suf = true.
Proof.
  rewrite !HasSuffix_spec. intros [r ->]. exists (a ++ r).
  now rewrite append_assoc.
Qed.

(** Finds [suf] at the end of a right-nested append whose last pieces are
    literal. *)
Ltac find_suffix := repeat first [reflexivity | apply HasSuffix_append_r].

(** A statement with fixed kinds is a chain of three operands. *)
Lemma statement_free (pat verb prep gt gk tail p gn n : string) :
  chain_ok pat verb (statement_lits prep gt gk tail) = true ->
  Contains p pat = false -> Contains gn pat = false -> Contains n pat = false ->
  Contains (verb ++ p ++ " ON " ++ gt ++ " " ++ gn ++ prep ++ gk ++ " " ++ dq
            ++ n ++ dq ++ tail) pat = false.
Proof.
  intros Hok Hp Hgn Hn.
  replace (verb ++ p ++ " ON " ++ gt ++ " " ++ gn ++ prep ++ gk ++ " " ++ dq
           ++ n ++ dq ++ tail)
    with (chain verb [(p, " ON " ++ gt ++ " "); (gn, prep ++ gk ++ " " ++ dq);
                      (n, dq ++ tail)]).
  - apply chain_free; [exact Hok |].
    cbn [forallb fst]. now rewrite Hp, Hgn, Hn.
  - unfold chain. cbn [fold_right fst snd].
    rewrite !append_assoc, append_nil_r. reflexivity.
Qed.

Lemma statements_ok_at (pat verb prep tail gt gk : string) :
  statements_ok pat verb prep tail = true ->
  In gt grantTypes -> In gk granteeTypes ->
  chain_ok pat verb (statement_lits prep gt gk tail) = true.
Proof.
  unfold statements_ok. rewrite forallb_forall. intros H Hgt Hgk.
  specialize (H gt Hgt). rewrite forallb_forall in H. exact (H gk Hgk).
Qed.

(** C4 (as the code has it).  For a privilege other than OWNERSHIP,
    Grant(p, true) is the GRANT statement followed by WITH GRANT OPTION and
    Grant(p, false) is the same statement without it.  The text WITH GRANT
    OPTION can still come with the operands: for an executable whose two
    kinds are constants of the package, Grant(p, false) is free of it as
    soon as the privilege, the qualified name and the grantee name are. *)
Theorem Grant_with_and_without_grant_option
    (ge : GrantExecutable) (p : string) :
  p <> "OWNERSHIP" ->
  let plain :=
    "GRANT " ++ p ++ " ON " ++ CurrentGrantExecutable.grantType ge ++ " "
    ++ CurrentGrantExecutable.grantName ge ++ " TO "
    ++ CurrentGrantExecutable.granteeType ge ++ " "
    ++ quoted (CurrentGrantExecutable.granteeName ge) in
  CurrentGrantExecutable.Grant ge p true = plain ++ " WITH GRANT OPTION"
  /\ HasSuffix (CurrentGrantExecutable.Grant ge p true) "WITH GRANT OPTION" = true
  /\ CurrentGrantExecutable.Grant ge p false = plain
  /\ (In (CurrentGrantExecutable.grantType ge) grantTypes ->
      In (CurrentGrantExecutable.granteeType ge) granteeTypes ->
      Contains p "WITH GRANT OPTION" = false ->
      Contains (CurrentGrantExecutable.grantName ge) "WITH GRANT OPTION" = false ->
      Contains (CurrentGrantExecutable.granteeName ge) "WITH GRANT OPTION" = false ->
      Contains (CurrentGrantExecutable.Grant ge p false) "WITH GRANT OPTION" = false).
Proof.
  intros Hp plain. subst plain. apply String.eqb_neq in Hp.
  rewrite !Grant_render. unfold grant_suffix. rewrite Hp.
  split; [unfold quoted; now rewrite !append_assoc |].
  split; [find_suffix |].
  split; [reflexivity |].
  intros Hgt Hgk Hfp Hfn Hfg.
  apply (statement_free "WITH GRANT OPTION" "GRANT " " TO "); try assumption.
  apply statements_ok_at; [vm_compute; reflexivity | exact Hgt | exact Hgk].
Qed.

(** C4 at the table example, privilege SELECT. *)
Lemma Grant_select_grant_option_witness :
  let ge := GrantBuilder.Role (TableGrant "DB" "SCH" "T") "ANALYST" in
  HasSuffix (CurrentGrantExecutable.Grant ge "SELECT" true) "WITH GRANT OPTION" = true
  /\ Contains (CurrentGrantExecutable.Grant ge "SELECT" false) "WITH GRANT OPTION" = false.
Proof.
  intros ge.
  destruct (Grant_with_and_without_grant_option ge "SELECT" ltac:(discriminate))
    as (_ & Hs & _ & Hf).
  split; [exact Hs |].
  apply Hf; try reflexivity; vm_compute; tauto.
Defined.

(** C4, refuted as stated: a role may be called WITH GRANT OPTION, and then
    Grant(SELECT, false) contains that text. *)
Lemma Grant_plain_contains_grant_option :
  let ge := GrantBuilder.Role (DatabaseGrant "DB") "WITH GRANT OPTION" in
  "SELECT" <> "OWNERSHIP"
  /\ CurrentGrantExecutable.Grant ge "SELECT" false =
     "GRANT SELECT ON DATABASE " ++ quoted "DB" ++ " TO ROLE "
     ++ quoted "WITH GRANT OPTION"
  /\ Contains (CurrentGrantExecutable.Grant ge "SELECT" false) "WITH GRANT OPTION"
     = true.
Proof. split; [discriminate | split; reflexivity]. Qed.

(** C5.  Revoke renders one statement for every privilege, OWNERSHIP
    included: REVOKE, the privilege, the target, FROM, the grantee; the
    text is a function of the executable's four fields and of p, and it
    ends with the quoted grantee name.  Neither clause of the Grant
    templates comes from the Revoke template: for an executable whose two
    kinds are constants of the package, a Revoke statement is free of the
    clause text as soon as the privilege, the qualified name and the
    grantee name are. *)
Theorem Revoke_unconditional :
  (forall (ge : GrantExecutable) (p : string),
      CurrentGrantExecutable.Revoke ge p =
      "REVOKE " ++ p ++ " ON " ++ CurrentGrantExecutable.grantType ge ++ " "
      ++ CurrentGrantExecutable.grantName ge ++ " FROM "
      ++ CurrentGrantExecutable.granteeType ge ++ " "
      ++ quoted (CurrentGrantExecutable.granteeName ge))
  /\ (forall ge : GrantExecutable,
      CurrentGrantExecutable.Revoke ge "OWNERSHIP" =
      "REVOKE OWNERSHIP ON " ++ CurrentGrantExecutable.grantType ge ++ " "
      ++ CurrentGrantExecutable.grantName ge ++ " FROM "
      ++ CurrentGrantExecutable.granteeType ge ++ " "
      ++ quoted (CurrentGrantExecutable.granteeName ge))
  /\ (forall (ge : GrantExecutable) (p : string),
      HasSuffix (CurrentGrantExecutable.Revoke ge p)
        (quoted (CurrentGrantExecutable.granteeName ge)) = true)
  /\ (forall (ge : GrantExecutable) (p clause : string),
      In clause ["COPY CURRENT GRANTS"; "WITH GRANT OPTION"] ->
      In (CurrentGrantExecutable.grantType ge) grantTypes ->
      In (CurrentGrantExecutable.granteeType ge) granteeTypes ->
      Contains p clause = false ->
      Contains (CurrentGrantExecutable.grantName ge) clause = false ->
      Contains (CurrentGrantExecutable.granteeName ge) clause = false ->
      Contains (CurrentGrantExecutable.Revoke ge p) clause = false).
Proof.
  split; [intros; reflexivity |]. split; [intros; reflexivity |].
  split.
  - intros ge p. rewrite Revoke_render.
    repeat first [exact (proj2 (HasSuffix_spec _ _) (ex_intro _ EmptyString eq_refl))
                 | apply HasSuffix_append_r].
  - intros ge p clause Hc Hgt Hgk Hfp Hfn Hfg. rewrite Revoke_render.
    replace dq with (dq ++ EmptyString) at 2 by reflexivity.
    apply (statement_free clause "REVOKE " " FROM "); try assumption.
    apply statements_ok_at; [| exact Hgt | exact Hgk].
    destruct Hc as [<- | [<- | []]]; vm_compute; reflexivity.
Qed.

(** C5 at the table example: revoking OWNERSHIP renders no COPY CURRENT
    GRANTS clause. *)
Lemma Revoke_ownership_witness :
  let ge := GrantBuilder.Role (TableGrant "DB" "SCH" "T") "ANALYST" in
  Contains (CurrentGrantExecutable.Revoke ge "OWNERSHIP") "COPY CURRENT GRANTS"
  = false.
Proof.
  intros ge.
  apply (proj2 (proj2 (proj2 Revoke_unconditional)) ge "OWNERSHIP");
    try reflexivity; vm_compute; tauto.
Defined.

(** ** Materialized views *)

(** Writes the statement of the goal as the chain [chain lit rest] and
    leaves the check of the literals to computation; the operands are free
    of the text by the hypotheses in the context. *)
Ltac by_chain lit rest :=
  match goal with
  | |- Contains ?s ?pat = false =>
      replace s with (chain lit rest)
        by (unfold chain; cbn [fold_right fst snd]; flatten; reflexivity);
      apply chain_free;
      [ vm_compute; reflexivity
      | cbn [forallb fst];
        repeat match goal with
               | H : Contains _ _ = false |- _ => rewrite H; clear H
               end;
        reflexivity ]
  end.

(** C2 (as the code has it).  Show() of a materialized-view builder names
    the kind MATERIALIZED VIEW.  The executables of Role(x) and Share(x)
    record the kind VIEW, so Grant and Revoke write ON VIEW before the
    qualified name.  The text MATERIALIZED VIEW can still come with the
    operands: the four statements are free of it as soon as the
    privilege, the three name parts and the grantee name are. *)
Theorem MaterializedView_show_and_grant_keywords (db schema view x : string) :
  let b := MaterializedViewGrant db schema view in
  let qn := quoted db ++ "." ++ quoted schema ++ "." ++ quoted view in
  (GrantBuilder.Show b = "SHOW GRANTS ON MATERIALIZED VIEW " ++ qn
   /\ Contains (GrantBuilder.Show b) "MATERIALIZED VIEW" = true)
  /\ (CurrentGrantExecutable.grantType (GrantBuilder.Role b x) = viewType
      /\ CurrentGrantExecutable.grantType (GrantBuilder.Share b x) = viewType)
  /\ (forall (p : string) (w : bool),
      CurrentGrantExecutable.Grant (GrantBuilder.Role b x) p w =
        "GRANT " ++ p ++ " ON VIEW " ++ qn ++ " TO ROLE " ++ quoted x
        ++ grant_suffix p w
      /\ CurrentGrantExecutable.Grant (GrantBuilder.Share b x) p w =
        "GRANT " ++ p ++ " ON VIEW " ++ qn ++ " TO SHARE " ++ quoted x
        ++ grant_suffix p w
      /\ CurrentGrantExecutable.Revoke (GrantBuilder.Role b x) p =
        "REVOKE " ++ p ++ " ON VIEW " ++ qn ++ " FROM ROLE " ++ quoted x
      /\ CurrentGrantExecutable.Revoke (GrantBuilder.Share b x) p =
        "REVOKE " ++ p ++ " ON VIEW " ++ qn ++ " FROM SHARE " ++ quoted x)
  /\ (forall (p : string) (w : bool),
      Contains (CurrentGrantExecutable.Grant (GrantBuilder.Role b x) p w) "VIEW" = true
      /\ Contains (CurrentGrantExecutable.Grant (GrantBuilder.Share b x) p w) "VIEW" = true
      /\ Contains (CurrentGrantExecutable.Revoke (GrantBuilder.Role b x) p) "VIEW" = true
      /\ Contains (CurrentGrantExecutable.Revoke (GrantBuilder.Share b x) p) "VIEW" = true)
  /\ (forall (p : string) (w : bool),
      Contains p "MATERIALIZED VIEW" = false ->
      Contains db "MATERIALIZED VIEW" = false ->
      Contains schema "MATERIALIZED VIEW" = false ->
      Contains view "MATERIALIZED VIEW" = false ->
      Contains x "MATERIALIZED VIEW" = false ->
      Contains (CurrentGrantExecutable.Grant (GrantBuilder.Role b x) p w)
        "MATERIALIZED VIEW" = false
      /\ Contains (CurrentGrantExecutable.Grant (GrantBuilder.Share b x) p w)
        "MATERIALIZED VIEW" = false
      /\ Contains (CurrentGrantExecutable.Revoke (GrantBuilder.Role b x) p)
        "MATERIALIZED VIEW" = false
      /\ Contains (CurrentGrantExecutable.Revoke (GrantBuilder.Share b x) p)
        "MATERIALIZED VIEW" = false).
Proof.
  intros b qn. subst b qn.
  split; [split; [unfold MaterializedViewGrant; flatten; reflexivity |] |].
  { apply Contains_spec.
    exists "SHOW GRANTS ON ". eexists. reflexivity. }
  split; [split; reflexivity |].
  split.
  { intros p w. rewrite !Grant_render, !Revoke_render.
    repeat split; unfold MaterializedViewGrant; flatten; reflexivity. }
  split.
  { intros p w. rewrite !Grant_render, !Revoke_render.
    cbn [MaterializedViewGrant GrantBuilder.Role GrantBuilder.Share
         CurrentMaterializedViewGrantBuilder.Role
         CurrentMaterializedViewGrantBuilder.Share
         CurrentGrantExecutable.grantType].
    repeat split; find_piece. }
  intros p w Hp Hdb Hschema Hview Hx.
  rewrite !Grant_render, !Revoke_render. unfold grant_suffix.
  cbn [MaterializedViewGrant GrantBuilder.Role GrantBuilder.Share
       CurrentMaterializedViewGrantBuilder.Role
       CurrentMaterializedViewGrantBuilder.Share
       CurrentMaterializedViewGrantBuilder.qualifiedName
       CurrentGrantExecutable.grantType CurrentGrantExecutable.grantName
       CurrentGrantExecutable.granteeType CurrentGrantExecutable.granteeName].
  repeat split.
  - destruct (p =? "OWNERSHIP")%string; [| destruct w].
    + by_chain "GRANT "
        [(p, " ON VIEW " ++ dq); (db, dq ++ "." ++ dq); (schema, dq ++ "." ++ dq);
         (view, dq ++ " TO ROLE " ++ dq); (x, dq ++ " COPY CURRENT GRANTS")].
    + by_chain "GRANT "
        [(p, " ON VIEW " ++ dq); (db, dq ++ "." ++ dq); (schema, dq ++ "." ++ dq);
         (view, dq ++ " TO ROLE " ++ dq); (x, dq ++ " WITH GRANT OPTION")].
    + by_chain "GRANT "
        [(p, " ON VIEW " ++ dq); (db, dq ++ "." ++ dq); (schema, dq ++ "." ++ dq);
         (view, dq ++ " TO ROLE " ++ dq); (x, dq)].
  - destruct (p =? "OWNERSHIP")%string; [| destruct w].
    + by_chain "GRANT "
        [(p, " ON VIEW " ++ dq); (db, dq ++ "." ++ dq); (schema, dq ++ "." ++ dq);
         (view, dq ++ " TO SHARE " ++ dq); (x, dq ++ " COPY CURRENT GRANTS")].
    + by_chain "GRANT "
        [(p, " ON VIEW " ++ dq); (db, dq ++ "." ++ dq); (schema, dq ++ "." ++ dq);
         (view, dq ++ " TO SHARE " ++ dq); (x, dq ++ " WITH GRANT OPTION")].
    + by_chain "GRANT "
        [(p, " ON VIEW " ++ dq); (db, dq ++ "." ++ dq); (schema, dq ++ "." ++ dq);
         (view, dq ++ " TO SHARE " ++ dq); (x, dq)].
  - by_chain "REVOKE "
      [(p, " ON VIEW " ++ dq); (db, dq ++ "." ++ dq); (schema, dq ++ "." ++ dq);
       (view, dq ++ " FROM ROLE " ++ dq); (x, dq)].
  - by_chain "REVOKE "
      [(p, " ON VIEW " ++ dq); (db, dq ++ "." ++ dq); (schema, dq ++ "." ++ dq);
       (view, dq ++ " FROM SHARE " ++ dq); (x, dq)].
Qed.

(** C2 at a sample view, privilege SELECT. *)
Lemma MaterializedView_select_witness :
  let b := MaterializedViewGrant "DB" "S" "MV" in
  Contains (GrantBuilder.Show b) "MATERIALIZED VIEW" = true
  /\ Contains (CurrentGrantExecutable.Grant (GrantBuilder.Role b "ANALYST") "SELECT" false)
       "VIEW" = true
  /\ Contains (CurrentGrantExecutable.Grant (GrantBuilder.Role b "ANALYST") "SELECT" false)
       "MATERIALIZED VIEW" = false.
Proof.
  intros b.
  destruct (MaterializedView_show_and_grant_keywords "DB" "S" "MV" "ANALYST")
    as ((_ & Hshow) & _ & _ & Hview & Hfree).
  split; [exact Hshow |].
  split; [exact (proj1 (Hview "SELECT" false)) |].
  exact (proj1 (Hfree "SELECT" false eq_refl eq_refl eq_refl eq_refl eq_refl)).
Defined.

(** C2, refuted as stated: a role may be called MATERIALIZED VIEW, and then
    the Grant and Revoke statements contain that text. *)
Lemma MaterializedView_grantee_named_after_kind :
  let ge := GrantBuilder.Role (MaterializedViewGrant "DB" "S" "V") "MATERIALIZED VIEW" in
  CurrentGrantExecutable.Grant ge "SELECT" false =
    "GRANT SELECT ON VIEW " ++ quoted "DB" ++ "." ++ quoted "S" ++ "." ++ quoted "V"
    ++ " TO ROLE " ++ quoted "MATERIALIZED VIEW"
  /\ Contains (CurrentGrantExecutable.Grant ge "SELECT" false) "MATERIALIZED VIEW" = true
  /\ Contains (CurrentGrantExecutable.Revoke ge "SELECT") "MATERIALIZED VIEW" = true.
Proof. repeat split. Qed.

(** * Further properties of the builders and the executables *)

(** ** Cancellation *)

Lemma append_length (a b : string) :
  String.length (a ++ b) = String.length a + String.length b.
Proof. induction a as [|c a IH]; simpl; [reflexivity | now rewrite IH]. Qed.

Lemma append_self_r (m c : string) : c = m ++ c -> m = EmptyString.
Proof.
  intros H. apply (f_equal String.length) in H. rewrite append_length in H.
  destruct m; [reflexivity | simpl in H; lia].
Qed.

Lemma append_inv_tail (a b c : string) : a ++ c = b ++ c -> a = b.
Proof.
  intros H. destruct (append_eq_split _ _ _ _ H) as [m [[-> Hm] | [-> Hm]]];
    apply append_self_r in Hm; subst m; now rewrite append_nil_r.
Qed.

Lemma last_char_append (a b : string) :
  b <> EmptyString -> last_char (a ++ b) = last_char b.
Proof.
  intros Hb. induction a as [|c a IH]; [reflexivity |].
  cbn [append last_char]. destruct (a ++ b) eqn:E; [| exact IH].
  apply append_eq_nil in E. destruct E as [_ E]. congruence.
Qed.

(** A text without double quote is recovered from what follows it, when
    that starts with a double quote. *)
Lemma split_at_first_quote (a a' r r' : string) :
  Contains a dq = false -> Contains a' dq = false ->
  a ++ dq ++ r = a' ++ dq ++ r' -> a = a' /\ r = r'.
Proof.
  intros Ha Ha' H. apply Contains_false in Ha, Ha'.
  destruct (append_eq_split _ _ _ _ H) as [m [[-> Hm] | [-> Hm]]];
    destruct m as [|c m].
  - rewrite append_nil_r. simpl in Hm. injection Hm as Hm. now split.
  - exfalso. apply Ha'. injection Hm as <- _. now exists a, m.
  - rewrite append_nil_r. simpl in Hm. injection Hm as Hm. now split.
  - exfalso. apply Ha. injection Hm as <- _. now exists a', m.
Qed.

(** If two appends are equal, one head starts the other. *)
Lemma append_eq_prefix (a x b y : string) :
  a ++ x = b ++ y -> HasPrefix a b = true \/ HasPrefix b a = true.
Proof.
  intros H. destruct (append_eq_split _ _ _ _ H) as [m [[-> _] | [-> _]]];
    [right | left]; apply HasPrefix_spec; now exists m.
Qed.

(** ** One executable, several requests *)

Lemma Grant_last_char (ge : GrantExecutable) (p : string) (w : bool) :
  last_char (CurrentGrantExecutable.Grant ge p w)
  = last_char (dq ++ grant_suffix p w).
Proof.
  replace (CurrentGrantExecutable.Grant ge p w)
    with (("GRANT " ++ p ++ " ON " ++ CurrentGrantExecutable.grantType ge ++ " "
           ++ CurrentGrantExecutable.grantName ge ++ " TO "
           ++ CurrentGrantExecutable.granteeType ge ++ " " ++ dq
           ++ CurrentGrantExecutable.granteeName ge) ++ dq ++ grant_suffix p w)
    by (rewrite Grant_render, !append_assoc; reflexivity).
  apply last_char_append. discriminate.
Qed.

(** X1.  On one executable, Grant tells its requests apart: two calls
    return the same statement exactly when they name the same privilege
    and, unless that privilege is OWNERSHIP, the same grant-option flag. *)
Theorem Grant_same_statement_iff
    (ge : GrantExecutable) (p p' : string) (w w' : bool) :
  CurrentGrantExecutable.Grant ge p w = CurrentGrantExecutable.Grant ge p' w'
  <-> p = p' /\ (p = "OWNERSHIP" \/ w = w').
Proof.
  split.
  - intros H.
    assert (Hs : grant_suffix p w = grant_suffix p' w').
    { apply (f_equal last_char) in H. rewrite !Grant_last_char in H.
      unfold grant_suffix in *.
      destruct (p =? "OWNERSHIP")%string, (p' =? "OWNERSHIP")%string, w, w';
        try reflexivity; discriminate H. }
    rewrite !Grant_render, <- Hs in H. apply append_inv_head in H.
    apply append_inv_tail in H. subst p'. split; [reflexivity |].
    unfold grant_suffix in Hs.
    destruct (p =? "OWNERSHIP")%string eqn:E.
    + left. now apply String.eqb_eq.
    + right. destruct w, w'; try reflexivity; discriminate Hs.
  - intros [<- [-> | <-]]; [| reflexivity].
    destruct w, w'; reflexivity.
Qed.

Lemma Grant_same_statement_witness :
  let ge := GrantBuilder.Role (TableGrant "DB" "SCH" "T") "ANALYST" in
  "SELECT" = "SELECT" /\ ("SELECT" = "OWNERSHIP" \/ true = true).
Proof.
  intros ge.
  exact (proj1 (Grant_same_statement_iff ge "SELECT" "SELECT" true true) eq_refl).
Defined.

(** X2.  On one executable, Revoke returns the same statement for two
    privileges only when they are the same privilege. *)
Theorem Revoke_same_statement_iff (ge : GrantExecutable) (p p' : string) :
  CurrentGrantExecutable.Revoke ge p = CurrentGrantExecutable.Revoke ge p'
  <-> p = p'.
Proof.
  split; [| now intros ->].
  rewrite !Revoke_render. intros H. apply append_inv_head in H.
  now apply append_inv_tail in H.
Qed.

Lemma Revoke_same_statement_witness :
  "USAGE" = "USAGE".
Proof.
  exact (proj1 (Revoke_same_statement_iff
                  (GrantBuilder.Share (WarehouseGrant "WH1") "PARTNER")
                  "USAGE" "USAGE") eq_refl).
Defined.

(** X3.  Show() of the executables that the builders return names the
    grantee and nothing else: two role executables (or two share
    executables) have the same statement exactly when they have the same
    grantee name, whatever their builders, and a role executable never has
    the statement of a share executable. *)
Theorem GrantExecutable_Show_identifies_grantee (b b' : GrantBuilder) (n n' : string) :
  (CurrentGrantExecutable.Show (GrantBuilder.Role b n)
   = CurrentGrantExecutable.Show (GrantBuilder.Role b' n') <-> n = n')
  /\ (CurrentGrantExecutable.Show (GrantBuilder.Share b n)
      = CurrentGrantExecutable.Show (GrantBuilder.Share b' n') <-> n = n')
  /\ CurrentGrantExecutable.Show (GrantBuilder.Role b n)
     <> CurrentGrantExecutable.Show (GrantBuilder.Share b' n').
Proof.
  rewrite !Show_render.
  destruct b as [gb | gb], b' as [gb' | gb'];
    cbn [GrantBuilder.Role GrantBuilder.Share
         CurrentGrantBuilder.Role CurrentGrantBuilder.Share
         CurrentMaterializedViewGrantBuilder.Role
         CurrentMaterializedViewGrantBuilder.Share
         CurrentGrantExecutable.granteeName CurrentGrantExecutable.granteeType];
    (split; [| split]);
    try (split; [| now intros ->]; intros H;
         repeat apply append_inv_head in H; now apply append_inv_tail in H);
    intros H; differ H.
Qed.

Lemma GrantExecutable_Show_identifies_grantee_witness :
  "PARTNER" = "PARTNER".
Proof.
  exact (proj1 (proj1 (GrantExecutable_Show_identifies_grantee
                         (WarehouseGrant "WH1") (TableGrant "DB" "SCH" "T")
                         "PARTNER" "PARTNER")) eq_refl).
Defined.

(** X4.  The executables of a materialized-view builder are those of the
    view builder with the same three names: Role and Share give equal
    executables, hence the same Grant, Revoke and Show statements.  The
    two builders themselves differ in GrantType() and in Show(). *)
Theorem MaterializedView_executables_are_View_executables
    (db schema view n : string) :
  GrantBuilder.Role (MaterializedViewGrant db schema view) n
  = GrantBuilder.Role (ViewGrant db schema view) n
  /\ GrantBuilder.Share (MaterializedViewGrant db schema view) n
     = GrantBuilder.Share (ViewGrant db schema view) n
  /\ (forall (p : string) (w : bool),
      CurrentGrantExecutable.Grant
        (GrantBuilder.Role (MaterializedViewGrant db schema view) n) p w
      = CurrentGrantExecutable.Grant
          (GrantBuilder.Role (ViewGrant db schema view) n) p w
      /\ CurrentGrantExecutable.Revoke
           (GrantBuilder.Share (MaterializedViewGrant db schema view) n) p
         = CurrentGrantExecutable.Revoke
             (GrantBuilder.Share (ViewGrant db schema view) n) p)
  /\ GrantBuilder.GrantType (MaterializedViewGrant db schema view)
     <> GrantBuilder.GrantType (ViewGrant db schema view)
  /\ GrantBuilder.Show (MaterializedViewGrant db schema view)
     <> GrantBuilder.Show (ViewGrant db schema view).
Proof.
  repeat split; try discriminate.
Qed.

(** X5.  With the account-level builder the qualified name is empty and
    the separators on both of its sides stay: Grant and Revoke write two
    spaces between ACCOUNT and TO or FROM, for every grantee and
    privilege. *)
Theorem AccountGrant_statements_double_space (n p : string) (w : bool) :
  CurrentGrantExecutable.Grant (GrantBuilder.Role AccountGrant n) p w
  = "GRANT " ++ p ++ " ON ACCOUNT" ++ "  " ++ "TO ROLE " ++ quoted n
    ++ grant_suffix p w
  /\ CurrentGrantExecutable.Grant (GrantBuilder.Share AccountGrant n) p w
     = "GRANT " ++ p ++ " ON ACCOUNT" ++ "  " ++ "TO SHARE " ++ quoted n
       ++ grant_suffix p w
  /\ CurrentGrantExecutable.Revoke (GrantBuilder.Role AccountGrant n) p
     = "REVOKE " ++ p ++ " ON ACCOUNT" ++ "  " ++ "FROM ROLE " ++ quoted n
  /\ CurrentGrantExecutable.Revoke (GrantBuilder.Share AccountGrant n) p
     = "REVOKE " ++ p ++ " ON ACCOUNT" ++ "  " ++ "FROM SHARE " ++ quoted n
  /\ Contains (CurrentGrantExecutable.Grant (GrantBuilder.Role AccountGrant n) p w)
       "ACCOUNT  TO" = true
  /\ Contains (CurrentGrantExecutable.Revoke (GrantBuilder.Role AccountGrant n) p)
       "ACCOUNT  FROM" = true.
Proof.
  rewrite !Grant_render, !Revoke_render.
  cbn [AccountGrant GrantBuilder.Role GrantBuilder.Share
       CurrentGrantBuilder.Role CurrentGrantBuilder.Share
       CurrentGrantBuilder.qualifiedName CurrentGrantBuilder.grantType
       CurrentGrantExecutable.grantName CurrentGrantExecutable.grantType
       CurrentGrantExecutable.granteeName CurrentGrantExecutable.granteeType].
  repeat split; try (unfold quoted; rewrite ?append_assoc; reflexivity);
    apply Contains_spec; apply occurs_append_r; apply occurs_append_r.
  - exists " ON ", (" ROLE " ++ dq ++ n ++ dq ++ grant_suffix p w). reflexivity.
  - exists " ON ", (" ROLE " ++ dq ++ n ++ dq). reflexivity.
Qed.

(** ** Telling statements apart *)

(** X6.  The four renderers never return each other's text: a Grant
    statement is no Revoke statement, neither is a Show statement of an
    executable, and none of the three is the Show statement of a builder,
    for any receivers and arguments. *)
Theorem renderers_have_disjoint_outputs
    (ge ge' ge'' : GrantExecutable) (b : GrantBuilder) (p p' : string) (w : bool) :
  CurrentGrantExecutable.Grant ge p w <> CurrentGrantExecutable.Revoke ge' p'
  /\ CurrentGrantExecutable.Grant ge p w <> CurrentGrantExecutable.Show ge''
  /\ CurrentGrantExecutable.Revoke ge' p' <> CurrentGrantExecutable.Show ge''
  /\ CurrentGrantExecutable.Grant ge p w <> GrantBuilder.Show b
  /\ CurrentGrantExecutable.Revoke ge' p' <> GrantBuilder.Show b
  /\ CurrentGrantExecutable.Show ge'' <> GrantBuilder.Show b.
Proof.
  rewrite Grant_render, Revoke_render, Show_render.
  destruct b as [gb | gb];
    unfold GrantBuilder.Show, CurrentGrantBuilder.Show,
      CurrentMaterializedViewGrantBuilder.Show;
    repeat split; intros H; cbn in H; differ H.
Qed.

Lemma kinds_apart_true : kinds_apart = true.
Proof. vm_compute. reflexivity. Qed.

(** A kind keyword of the package at the head of a text, followed by a
    space, is determined by the text, and so is what follows. *)
Lemma kind_and_name_from_text (k k' x x' : string) :
  In k grantTypes -> In k' grantTypes ->
  k ++ " " ++ x = k' ++ " " ++ x' -> k = k' /\ x = x'.
Proof.
  intros Hk Hk' H.
  assert (E : k = k').
  { pose proof kinds_apart_true as A. unfold kinds_apart in A.
    rewrite forallb_forall in A. specialize (A k Hk).
    rewrite forallb_forall in A. specialize (A k' Hk').
    apply orb_true_iff in A. destruct A as [A | A]; [now apply String.eqb_eq |].
    exfalso. apply negb_true_iff, orb_false_iff in A. destruct A as [A1 A2].
    rewrite <- !append_assoc in H.
    destruct (append_eq_prefix _ _ _ _ H); congruence. }
  subst k'. split; [reflexivity |].
  apply append_inv_head in H. now injection H.
Qed.

(** X7.  Show() of a builder tells the object kind and the qualified name:
    two builders whose kinds are constants of the package and whose Show
    statements are equal have the same GrantType(); two CurrentGrantBuilder
    values then have the same qualified name too. *)
Theorem builder_Show_identifies_kind :
  (forall b b' : GrantBuilder,
      In (GrantBuilder.GrantType b) grantTypes ->
      In (GrantBuilder.GrantType b') grantTypes ->
      GrantBuilder.Show b = GrantBuilder.Show b' ->
      GrantBuilder.GrantType b = GrantBuilder.GrantType b')
  /\ (forall gb gb' : CurrentGrantBuilder.t,
      In (CurrentGrantBuilder.grantType gb) grantTypes ->
      In (CurrentGrantBuilder.grantType gb') grantTypes ->
      CurrentGrantBuilder.Show gb = CurrentGrantBuilder.Show gb' ->
      CurrentGrantBuilder.grantType gb = CurrentGrantBuilder.grantType gb'
      /\ CurrentGrantBuilder.qualifiedName gb = CurrentGrantBuilder.qualifiedName gb').
Proof.
  assert (T : forall k q k' q', In k grantTypes -> In k' grantTypes ->
              Sprintf "SHOW GRANTS ON %v %v" [k; q]
              = Sprintf "SHOW GRANTS ON %v %v" [k'; q'] -> k = k' /\ q = q').
  { intros k q k' q' Hk Hk' H.
    change ("SHOW GRANTS ON " ++ k ++ " " ++ q ++ EmptyString
            = "SHOW GRANTS ON " ++ k' ++ " " ++ q' ++ EmptyString) in H.
    apply append_inv_head in H. rewrite !append_nil_r in H.
    exact (kind_and_name_from_text k k' q q' Hk Hk' H). }
  split.
  - intros [gb | gb] [gb' | gb'] Hk Hk' H; exact (proj1 (T _ _ _ _ Hk Hk' H)).
  - intros gb gb' Hk Hk' H. exact (T _ _ _ _ Hk Hk' H).
Qed.

Lemma builder_Show_identifies_kind_witness :
  GrantBuilder.GrantType (TableGrant "DB" "SCH" "T")
  = GrantBuilder.GrantType (TableGrant "DB" "SCH" "T").
Proof.
  apply (proj1 builder_Show_identifies_kind);
    [vm_compute; tauto | vm_compute; tauto | reflexivity].
Defined.

(** ** Names without double quote *)

(** Strips the characters on which the two sides of [H] agree. *)
Ltac peel H := repeat injection H as H.

(** X8.  When the database and schema names hold no double quote, the
    name parts can be read back from the statement: a constructor with
    three name parts gives the same Show statement for two triples only if
    the triples are equal, SchemaGrant for two pairs only if the pairs are
    equal (here only the database names are constrained), and a
    constructor with one name part for two names only if they are equal
    (no constraint). *)
Theorem name_parts_determined_by_Show :
  (forall (mk : string -> string -> string -> GrantBuilder)
          (db schema object db' schema' object' : string),
      In mk threePartConstructors ->
      Contains db dq = false -> Contains schema dq = false ->
      Contains db' dq = false -> Contains schema' dq = false ->
      GrantBuilder.Show (mk db schema object)
      = GrantBuilder.Show (mk db' schema' object') ->
      db = db' /\ schema = schema' /\ object = object')
  /\ (forall db schema db' schema' : string,
      Contains db dq = false -> Contains db' dq = false ->
      GrantBuilder.Show (SchemaGrant db schema)
      = GrantBuilder.Show (SchemaGrant db' schema') ->
      db = db' /\ schema = schema')
  /\ (forall (mk : string -> GrantBuilder) (s s' : string),
      In mk onePartConstructors ->
      GrantBuilder.Show (mk s) = GrantBuilder.Show (mk s') -> s = s').
Proof.
  split; [| split].
  - intros mk db schema object db' schema' object' Hmk Hdb Hs Hdb' Hs' H.
    assert (Q : dq ++ db ++ dq ++ "." ++ dq ++ schema ++ dq ++ "." ++ dq
                ++ object ++ dq
                = dq ++ db' ++ dq ++ "." ++ dq ++ schema' ++ dq ++ "." ++ dq
                  ++ object' ++ dq).
    { cbn [threePartConstructors In] in Hmk.
      repeat (destruct Hmk as [<- | Hmk]; [
        cbn in H; rewrite ?append_nil_r in H; peel H;
        exact (f_equal (String "034"%char) H) |]).
      destruct Hmk. }
    apply append_inv_head in Q.
    apply (split_at_first_quote _ _ _ _ Hdb Hdb') in Q. destruct Q as [-> Q].
    peel Q.
    apply (split_at_first_quote _ _ _ _ Hs Hs') in Q. destruct Q as [-> Q].
    peel Q. apply append_inv_tail in Q. now subst.
  - intros db schema db' schema' Hdb Hdb' H.
    cbn in H. rewrite ?append_nil_r in H. peel H.
    apply (split_at_first_quote _ _ _ _ Hdb Hdb') in H. destruct H as [-> H].
    peel H. apply append_inv_tail in H. now subst.
  - intros mk s s' Hmk H. cbn [onePartConstructors In] in Hmk.
    repeat (destruct Hmk as [<- | Hmk]; [
      cbn in H; rewrite ?append_nil_r in H; peel H;
      now apply append_inv_tail in H |]).
    destruct Hmk.
Qed.

Lemma name_parts_determined_by_Show_witness :
  "DB" = "DB" /\ "SCH" = "SCH" /\ "T" = "T".
Proof.
  apply (proj1 name_parts_determined_by_Show TableGrant "DB" "SCH" "T" "DB" "SCH" "T");
    try reflexivity.
  vm_compute. tauto.
Defined.

(** X9.  The argument types of a function or a procedure cannot be read
    back: the empty list and the list holding one empty string give the
    same builder, and so do a list and the list in which the first two
    types are merged into one with a comma and a space between. *)
Theorem argument_types_not_determined (db schema name : string) :
  FunctionGrant db schema name [] = FunctionGrant db schema name [EmptyString]
  /\ ProcedureGrant db schema name [] = ProcedureGrant db schema name [EmptyString]
  /\ (forall (a b : string) (rest : list string),
      FunctionGrant db schema name (a :: b :: rest)
      = FunctionGrant db schema name ((a ++ ", " ++ b) :: rest)
      /\ ProcedureGrant db schema name (a :: b :: rest)
         = ProcedureGrant db schema name ((a ++ ", " ++ b) :: rest)).
Proof.
  split; [reflexivity |]. split; [reflexivity |].
  intros a b rest.
  assert (J : Join (a :: b :: rest) ", " = Join ((a ++ ", " ++ b) :: rest) ", ").
  { destruct rest as [|c rest]; [reflexivity |].
    cbn [Join]. now rewrite !append_assoc. }
  unfold FunctionGrant, ProcedureGrant. now rewrite J.
Qed.

(** ** Builders made by the constructors *)

(** The executables of a constructed builder carry a kind keyword of the
    package, the same for Role and Share. *)
Lemma Constructed_executable_kind (parts : list string) (b : GrantBuilder) (n : string) :
  Constructed parts b ->
  In (CurrentGrantExecutable.grantType (GrantBuilder.Role b n)) grantTypes
  /\ CurrentGrantExecutable.grantType (GrantBuilder.Share b n)
     = CurrentGrantExecutable.grantType (GrantBuilder.Role b n).
Proof.
  intros Hc. destruct Hc; (split; [vm_compute; tauto | reflexivity]).
Qed.

(** X10.  For a builder made by one of the sixteen constructors:
    GrantType() is one of the sixteen kind keywords; Name() is the last of
    the name parts given (the third for a function or a procedure, whose
    argument types follow; empty for the account); Show() starts with SHOW
    GRANTS ON, the keyword and a space; and the executables of Role and
    Share carry the keyword of GrantType(), except that for MATERIALIZED
    VIEW they carry VIEW. *)
Theorem Constructed_kind_and_name (parts : list string) (b : GrantBuilder) (n : string) :
  Constructed parts b ->
  In (GrantBuilder.GrantType b) grantTypes
  /\ GrantBuilder.Name b = last (firstn 3 parts) EmptyString
  /\ HasPrefix (GrantBuilder.Show b)
       ("SHOW GRANTS ON " ++ GrantBuilder.GrantType b ++ " ") = true
  /\ CurrentGrantExecutable.grantType (GrantBuilder.Role b n)
     = (if (GrantBuilder.GrantType b =? "MATERIALIZED VIEW")%string
        then "VIEW" else GrantBuilder.GrantType b)
  /\ CurrentGrantExecutable.grantType (GrantBuilder.Share b n)
     = CurrentGrantExecutable.grantType (GrantBuilder.Role b n).
Proof.
  intros Hc. destruct Hc; (split; [vm_compute; tauto |]);
    (split; [reflexivity |]); (split; [| split; reflexivity]);
    apply HasPrefix_spec; eexists; reflexivity.
Qed.

Lemma Constructed_kind_and_name_witness :
  GrantBuilder.Name (FunctionGrant "DB" "S" "F" ["NUMBER"; "VARCHAR"]) = "F"
  /\ CurrentGrantExecutable.grantType
       (GrantBuilder.Role (MaterializedViewGrant "DB" "S" "MV") "R") = "VIEW".
Proof.
  split.
  - exact (proj1 (proj2 (Constructed_kind_and_name _ _ EmptyString
                           (Constructed_Function "DB" "S" "F" ["NUMBER"; "VARCHAR"])))).
  - exact (proj1 (proj2 (proj2 (proj2 (Constructed_kind_and_name _ _ "R"
                           (Constructed_MaterializedView "DB" "S" "MV")))))).
Defined.

Lemma Contains_append_r (a b pat : string) :
  Contains b pat = true -> Contains (a ++ b) pat = true.
Proof. rewrite !Contains_spec. apply occurs_append_r. Qed.

(** Argument types free of a text stay free of it once joined, when the
    separator lets no occurrence through. *)
Lemma Join_free (pat : string) (args : list string) :
  seals pat ", " = true -> Contains EmptyString pat = false ->
  all_free pat args = true -> Contains (Join args ", ") pat = false.
Proof.
  intros Hs He. induction args as [|a args IH]; intros Hf; [exact He |].
  cbn [all_free forallb] in Hf. apply andb_true_iff in Hf.
  destruct Hf as [Ha Hf]. apply negb_true_iff in Ha.
  destruct args as [|b args]; [exact Ha |].
  change (Join (a :: b :: args) ", ") with (a ++ ", " ++ Join (b :: args) ", ").
  apply Contains_false. intros H.
  destruct (seals_occurs pat a ", " _ Hs H) as [H1 | H1];
    apply Contains_spec in H1; [congruence |].
  rewrite (IH Hf) in H1. discriminate.
Qed.

(** Splits a hypothesis [all_free pat (x :: ...) = true] into one
    hypothesis per string. *)
Ltac split_free H :=
  repeat (cbn [all_free forallb] in H; apply andb_true_iff in H;
          let H1 := fresh "Hfree" in
          destruct H as [H1 H]; apply negb_true_iff in H1).

(** The qualified name of a constructed builder is free of a clause text
    when the strings given to the constructor are. *)
Lemma Constructed_name_free (parts : list string) (b : GrantBuilder)
    (n clause : string) :
  Constructed parts b -> In clause clauses -> all_free clause parts = true ->
  Contains (CurrentGrantExecutable.grantName (GrantBuilder.Role b n)) clause = false
  /\ CurrentGrantExecutable.grantName (GrantBuilder.Share b n)
     = CurrentGrantExecutable.grantName (GrantBuilder.Role b n).
Proof.
  intros Hc Hcl Hf. split; [| destruct Hc; reflexivity].
  cbn [clauses In] in Hcl.
  destruct Hcl as [<- | [<- | []]]; destruct Hc; split_free Hf;
    try (apply Join_free in Hf; [| vm_compute; reflexivity | reflexivity]);
    first
      [ reflexivity
      | match goal with
        | |- Contains (_ (_ (DatabaseGrant ?s) _)) _ = _ => by_chain dq [(s, dq)]
        | |- Contains (_ (_ (ResourceMonitorGrant ?s) _)) _ = _ => by_chain dq [(s, dq)]
        | |- Contains (_ (_ (IntegrationGrant ?s) _)) _ = _ => by_chain dq [(s, dq)]
        | |- Contains (_ (_ (WarehouseGrant ?s) _)) _ = _ => by_chain dq [(s, dq)]
        | |- Contains (_ (_ (SchemaGrant ?d ?s) _)) _ = _ =>
            by_chain dq [(d, dq ++ "." ++ dq); (s, dq)]
        | |- Contains (_ (_ (FunctionGrant ?d ?s ?f ?a) _)) _ = _ =>
            by_chain dq [(d, dq ++ "." ++ dq); (s, dq ++ "." ++ dq);
                         (f, dq ++ "("); (Join a ", ", ")")]
        | |- Contains (_ (_ (ProcedureGrant ?d ?s ?f ?a) _)) _ = _ =>
            by_chain dq [(d, dq ++ "." ++ dq); (s, dq ++ "." ++ dq);
                         (f, dq ++ "("); (Join a ", ", ")")]
        | |- Contains (_ (_ (_ ?d ?s ?o) _)) _ = _ =>
            by_chain dq [(d, dq ++ "." ++ dq); (s, dq ++ "." ++ dq); (o, dq)]
        end ].
Qed.

(** On an executable whose kinds are constants of the package and whose
    operands are free of a clause text, the Grant statement holds the
    clause exactly when the template's tail does, and the Revoke statement
    does not hold it. *)
Lemma executable_clause (ge : GrantExecutable) (p clause : string) (w : bool) :
  In clause clauses ->
  In (CurrentGrantExecutable.grantType ge) grantTypes ->
  In (CurrentGrantExecutable.granteeType ge) granteeTypes ->
  Contains p clause = false ->
  Contains (CurrentGrantExecutable.grantName ge) clause = false ->
  Contains (CurrentGrantExecutable.granteeName ge) clause = false ->
  Contains (CurrentGrantExecutable.Grant ge p w) clause
  = Contains (grant_suffix p w) clause
  /\ Contains (CurrentGrantExecutable.Revoke ge p) clause = false.
Proof.
  intros Hcl Hgt Hgk Hp Hgn Hn. split.
  - rewrite Grant_render. unfold grant_suffix. cbn [clauses In] in Hcl.
    destruct Hcl as [<- | [<- | []]];
      destruct (p =? "OWNERSHIP")%string; [| destruct w | | destruct w];
      match goal with
      | |- _ = ?rhs => let v := eval vm_compute in rhs in change rhs with v
      end;
      first
        [ apply (statement_free _ "GRANT " " TO "); try assumption;
          apply statements_ok_at; [vm_compute; reflexivity | exact Hgt | exact Hgk]
        | repeat first [reflexivity | apply Contains_append_r] ].
  - rewrite Revoke_render.
    replace dq with (dq ++ EmptyString) at 2 by reflexivity.
    apply (statement_free clause "REVOKE " " FROM "); try assumption.
    apply statements_ok_at; [| exact Hgt | exact Hgk].
    cbn [clauses In] in Hcl. destruct Hcl as [<- | [<- | []]]; vm_compute; reflexivity.
Qed.

(** X11.  End to end, for a builder made by any of the sixteen
    constructors and a role or share executable of it: when the privilege,
    the grantee name and the strings given to the constructor are free of
    the clause text, the Grant statement contains WITH GRANT OPTION
    exactly when the flag is set and the privilege is not OWNERSHIP, it
    contains COPY CURRENT GRANTS exactly when the privilege is OWNERSHIP,
    and the Revoke statement contains neither. *)
Theorem Constructed_clauses_as_requested
    (parts : list string) (b : GrantBuilder) (n p : string) (w : bool) :
  Constructed parts b ->
  (all_free "WITH GRANT OPTION" (p :: n :: parts) = true ->
   Contains (CurrentGrantExecutable.Grant (GrantBuilder.Role b n) p w)
     "WITH GRANT OPTION" = negb (p =? "OWNERSHIP")%string && w
   /\ Contains (CurrentGrantExecutable.Grant (GrantBuilder.Share b n) p w)
        "WITH GRANT OPTION" = negb (p =? "OWNERSHIP")%string && w
   /\ Contains (CurrentGrantExecutable.Revoke (GrantBuilder.Role b n) p)
        "WITH GRANT OPTION" = false
   /\ Contains (CurrentGrantExecutable.Revoke (GrantBuilder.Share b n) p)
        "WITH GRANT OPTION" = false)
  /\ (all_free "COPY CURRENT GRANTS" (p :: n :: parts) = true ->
      Contains (CurrentGrantExecutable.Grant (GrantBuilder.Role b n) p w)
        "COPY CURRENT GRANTS" = (p =? "OWNERSHIP")%string
      /\ Contains (CurrentGrantExecutable.Grant (GrantBuilder.Share b n) p w)
           "COPY CURRENT GRANTS" = (p =? "OWNERSHIP")%string
      /\ Contains (CurrentGrantExecutable.Revoke (GrantBuilder.Role b n) p)
           "COPY CURRENT GRANTS" = false
      /\ Contains (CurrentGrantExecutable.Revoke (GrantBuilder.Share b n) p)
           "COPY CURRENT GRANTS" = false).
Proof.
  intros Hc.
  assert (G : forall clause, In clause clauses ->
              all_free clause (p :: n :: parts) = true ->
              forall ge, ge = GrantBuilder.Role b n \/ ge = GrantBuilder.Share b n ->
              Contains (CurrentGrantExecutable.Grant ge p w) clause
              = Contains (grant_suffix p w) clause
              /\ Contains (CurrentGrantExecutable.Revoke ge p) clause = false).
  { intros clause Hcl Hf ge Hge.
    cbn [all_free forallb] in Hf. apply andb_true_iff in Hf.
    destruct Hf as [Hp Hf]. apply andb_true_iff in Hf. destruct Hf as [Hn Hf].
    apply negb_true_iff in Hp, Hn.
    destruct (Constructed_name_free parts b n clause Hc Hcl Hf) as [Hq Hqs].
    destruct (Constructed_executable_kind parts b n Hc) as [Hv Hs].
    destruct Hge as [-> | ->]; apply executable_clause; try assumption;
      match goal with
      | |- In (CurrentGrantExecutable.granteeType _) _ =>
          destruct b; vm_compute; tauto
      | |- In (CurrentGrantExecutable.grantType _) _ => rewrite Hs; exact Hv
      | |- Contains (CurrentGrantExecutable.granteeName _) _ = _ =>
          destruct b; exact Hn
      | |- Contains (CurrentGrantExecutable.grantName _) _ = _ =>
          rewrite Hqs; exact Hq
      end. }
  split; intros Hf.
  - assert (S : Contains (grant_suffix p w) "WITH GRANT OPTION"
                = negb (p =? "OWNERSHIP")%string && w).
    { unfold grant_suffix. destruct (p =? "OWNERSHIP")%string, w; reflexivity. }
    rewrite <- S.
    pose proof (G _ (or_introl eq_refl) Hf _ (or_introl eq_refl)) as [G1 G2].
    pose proof (G _ (or_introl eq_refl) Hf _ (or_intror eq_refl)) as [G3 G4].
    now repeat split.
  - assert (S : Contains (grant_suffix p w) "COPY CURRENT GRANTS"
                = (p =? "OWNERSHIP")%string).
    { unfold grant_suffix. destruct (p =? "OWNERSHIP")%string, w; reflexivity. }
    rewrite <- S.
    pose proof (G _ (or_intror (or_introl eq_refl)) Hf _ (or_introl eq_refl)) as [G1 G2].
    pose proof (G _ (or_intror (or_introl eq_refl)) Hf _ (or_intror eq_refl)) as [G3 G4].
    now repeat split.
Qed.

Lemma Constructed_clauses_as_requested_witness :
  let b := FunctionGrant "DB" "S" "F" ["NUMBER"; "VARCHAR"] in
  Contains (CurrentGrantExecutable.Grant (GrantBuilder.Role b "ANALYST") "USAGE" true)
    "WITH GRANT OPTION" = true
  /\ Contains (CurrentGrantExecutable.Grant (GrantBuilder.Share b "PARTNER") "OWNERSHIP" true)
       "WITH GRANT OPTION" = false
  /\ Contains (CurrentGrantExecutable.Revoke (GrantBuilder.Role b "ANALYST") "OWNERSHIP")
       "COPY CURRENT GRANTS" = false.
Proof.
  intros b.
  pose proof (Constructed_Function "DB" "S" "F" ["NUMBER"; "VARCHAR"]) as Hc.
  split; [| split].
  - exact (proj1 (proj1 (Constructed_clauses_as_requested _ _ "ANALYST" "USAGE" true Hc)
                    eq_refl)).
  - exact (proj1 (proj2 (proj1 (Constructed_clauses_as_requested _ _ "PARTNER"
                                  "OWNERSHIP" true Hc) eq_refl))).
  - exact (proj1 (proj2 (proj2 (proj2 (Constructed_clauses_as_requested _ _ "ANALYST"
                                  "OWNERSHIP" true Hc) eq_refl)))).
Defined.

(** X12.  On one builder and for one privilege and flag, the statements
    tell the grantees apart: Grant (and Revoke) for two role names are
    equal only when the names are equal, likewise for two share names,
    and a role statement is never a share statement. *)
Theorem statements_identify_grantee
    (b : GrantBuilder) (n n' p : string) (w : bool) :
  (CurrentGrantExecutable.Grant (GrantBuilder.Role b n) p w
   = CurrentGrantExecutable.Grant (GrantBuilder.Role b n') p w <-> n = n')
  /\ (CurrentGrantExecutable.Grant (GrantBuilder.Share b n) p w
      = CurrentGrantExecutable.Grant (GrantBuilder.Share b n') p w <-> n = n')
  /\ (CurrentGrantExecutable.Revoke (GrantBuilder.Role b n) p
      = CurrentGrantExecutable.Revoke (GrantBuilder.Role b n') p <-> n = n')
  /\ (CurrentGrantExecutable.Revoke (GrantBuilder.Share b n) p
      = CurrentGrantExecutable.Revoke (GrantBuilder.Share b n') p <-> n = n')
  /\ CurrentGrantExecutable.Grant (GrantBuilder.Role b n) p w
     <> CurrentGrantExecutable.Grant (GrantBuilder.Share b n') p w
  /\ CurrentGrantExecutable.Revoke (GrantBuilder.Role b n) p
     <> CurrentGrantExecutable.Revoke (GrantBuilder.Share b n') p.
Proof.
  rewrite !Grant_render, !Revoke_render.
  destruct b as [gb | gb];
    cbn [GrantBuilder.Role GrantBuilder.Share
         CurrentGrantBuilder.Role CurrentGrantBuilder.Share
         CurrentMaterializedViewGrantBuilder.Role
         CurrentMaterializedViewGrantBuilder.Share
         CurrentGrantExecutable.grantName CurrentGrantExecutable.grantType
         CurrentGrantExecutable.granteeName CurrentGrantExecutable.granteeType];
    repeat split; try (now intros ->);
    intros H; repeat apply append_inv_head in H;
    try (rewrite <- !append_assoc in H; apply append_inv_tail in H;
         now apply append_inv_tail in H);
    try (now apply append_inv_tail in H);
    differ H.
Qed.

Lemma statements_identify_grantee_witness :
  "ANALYST" = "ANALYST".
Proof.
  exact (proj1 (proj1 (statements_identify_grantee (TableGrant "DB" "SCH" "T")
                         "ANALYST" "ANALYST" "SELECT" false)) eq_refl).
Defined.
